(** * MapSketcher: the point-cloud store and its interaction controller

    A shallow embedding of [scripts/sketcher.py].  The two classes of the
    script, [PointCloud3D] (the geometry store) and [PointCloudApp] (the
    controller), become two modules of state-passing functions.  NumPy arrays
    of shape (n,3) are lists of rows; Python floats are binary64 numbers
    (Rocq's primitive floats), so comparisons and truncations are the ones the
    interpreter performs. *)

From Stdlib Require Import ZArith List Lia Bool String Ascii Floats DecimalString.
From stdpp Require Import base gmap strings.
Import ListNotations.

Set Warnings "-inexact-float".

(** ** Python and NumPy primitives used by the script *)

Module Py.

(** [float(z)] for an integer [z]: the nearest binary64 number. *)
Definition float_of_int (z : Z) : float :=
  SF2Prim (binary_normalize prec emax z 0 false).

(** [int(f)]: truncation toward zero; Python raises on nan and infinities. *)
Definition int_of_float (f : float) : option Z :=
  match Prim2SF f with
  | S754_zero _ => Some 0%Z
  | S754_finite s m e =>
      let v := if (0 <=? e)%Z then Z.shiftl (Zpos m) e
               else Z.shiftr (Zpos m) (- e) in
      Some (if s then (- v)%Z else v)
  | S754_infinity _ | S754_nan => None
  end.

(** [range(n)] as the ascending list of its integers. *)
Definition range (n : Z) : list Z := map Z.of_nat (seq 0 (Z.to_nat n)).

(** [l.pop()] on a non-empty list: the list without its last element, and
    that element; [None] stands for the emptiness test failing. *)
Fixpoint pop {A : Type} (l : list A) : option (list A * A) :=
  match l with
  | [] => None
  | x :: l' =>
      match pop l' with
      | None => Some ([], x)
      | Some (r, y) => Some (x :: r, y)
      end
  end.

(** [str(n)] for a length. *)
Definition str_of_nat (n : nat) : string := NilEmpty.string_of_uint (Nat.to_uint n).

Definition nl : string := String (ascii_of_nat 10) EmptyString.

(** [s.encode()] for the ASCII headers the script writes. *)
Definition encode (s : string) : list Byte.byte := list_byte_of_string s.

End Py.

Module Np.

(** [np.arange(0, num)] as floats. *)
Definition arange (num : nat) : list float :=
  map (fun i => Py.float_of_int (Z.of_nat i)) (seq 0 num).

(** [y[-1] = v] on a one-dimensional array. *)
Definition set_last (y : list float) (v : float) : list float :=
  match y with
  | [] => []
  | _ => removelast y ++ [v]
  end.

(** [np.linspace(start, stop, num)] (endpoint included), following NumPy's
    implementation: the samples are [i * step + start], the last one is
    overwritten with [stop] when [num > 1], and with [num = 1] the only
    sample is [0 * (stop - start) + start]. *)
Definition linspace (start stop : float) (num : nat) : list float :=
  let div := (Z.of_nat num - 1)%Z in
  let delta := (stop - start)%float in
  let y := arange num in
  let y :=
    if (0 <? div)%Z then
      let step := (delta / Py.float_of_int div)%float in
      if (step =? 0)%float
      then map (fun v => (v / Py.float_of_int div * delta)%float) y
      else map (fun v => (v * step)%float) y
    else map (fun v => (v * delta)%float) y in
  let y := map (fun v => (v + start)%float) y in
  if (1 <? Z.of_nat num)%Z then set_last y stop else y.

(** [np.meshgrid(xs, ys)]: two (len ys, len xs) arrays, [xx[i][j] = xs[j]]
    and [yy[i][j] = ys[i]]. *)
Definition meshgrid (xs ys : list float) : list (list float) * list (list float) :=
  (map (fun _ => xs) ys, map (fun yv => map (fun _ => yv) xs) ys).

(** [a.ravel()] of a two-dimensional array (row-major). *)
Definition ravel (a : list (list float)) : list float := concat a.

(** [np.sqrt(p)] of a Python integer. *)
Definition sqrt_int (p : Z) : float := PrimFloat.sqrt (Py.float_of_int p).

(** [a.astype(np.uint8)] on one float, the C conversion of a double to an
    unsigned char.  C defines it where the truncated value fits the type,
    that is for [-1 < f < 256], as truncation toward zero.  Elsewhere NumPy
    on x86-64 converts to a 32-bit integer and keeps the low byte: the
    truncation modulo 256 while it fits 32 bits, and 0 (the low byte of the
    processor's "integer indefinite" value) beyond that and for nan and the
    infinities. *)
Definition astype_uint8 (f : float) : Z :=
  match Py.int_of_float f with
  | Some z =>
      if ((- 2 ^ 31 <=? z) && (z <? 2 ^ 31))%Z then (z mod 256)%Z else 0%Z
  | None => 0%Z
  end.

(** [a.astype(int)] on one float of an index array. *)
Definition astype_int (f : float) : Z :=
  match Py.int_of_float f with
  | Some z => z
  | None => 0%Z
  end.

End Np.

(** A row of an (n,3) float array, and a row of an (n,3) uint8 array. *)
Abbreviation vec3 := (float * float * float)%type (only parsing).
Abbreviation rgb8 := (Z * Z * Z)%type (only parsing).

(** ** The geometry store *)

Module PointCloud3D.

Record t : Type := mk {
  points : list vec3;
  colors : list vec3;
  undo_stack : list (nat * nat);
  cloud_height : float;
  export_layer_height : float;
  export_layer_count : Z
}.

(** [PointCloud3D.__init__]. *)
Definition init : t :=
  {| points := [];
     colors := [];
     undo_stack := [];
     cloud_height := 0.25;
     export_layer_height := 0.25;
     export_layer_count := 10 |}.

(** Assignment to the three mutable attributes of the store. *)
Definition set_buffers (self : t) (p c : list vec3) (st : list (nat * nat)) : t :=
  {| points := p;
     colors := c;
     undo_stack := st;
     cloud_height := cloud_height self;
     export_layer_height := export_layer_height self;
     export_layer_count := export_layer_count self |}.

Definition default_size : float := 1.0.
Definition default_pts : Z := 200.
Definition default_color : vec3 := (0.2, 0.6, 0.9)%float.

(** The side [n] of the grid: [n = int(np.sqrt(max(1, int(pts))))], at
    least 1.  The square root of a positive integer is finite, so [int]
    does not raise there. *)
Definition grid_side (pts : Z) : Z :=
  let pts := Z.max 1 pts in
  let n := match Py.int_of_float (Np.sqrt_int pts) with
           | Some n => n
           | None => 0%Z
           end in
  if (n <? 1)%Z then 1%Z else n.

(** The rows [pts3] that [add_square] generates. *)
Definition square_points (x y size : float) (pts : Z) : list vec3 :=
  let n := Z.to_nat (grid_side pts) in
  let xs := map (fun v => (v + x)%float) (Np.linspace (- size / 2) (size / 2) n) in
  let ys := map (fun v => (v + y)%float) (Np.linspace (- size / 2) (size / 2) n) in
  let '(xx, yy) := Np.meshgrid xs ys in
  let xy := combine (Np.ravel xx) (Np.ravel yy) in
  map (fun '(a, b) => (a, b, 0%float)) xy.

(** [add_square]: the new store and the returned count. *)
Definition add_square (self : t) (x y size : float) (pts : Z) (color : vec3) : t * nat :=
  let pts3 := square_points x y size pts in
  let cols := repeat color (length pts3) in
  let start := length (points self) in
  let count := length pts3 in
  let stack := undo_stack self ++ [(start, count)] in
  if (start =? 0)%nat
  then (set_buffers self pts3 cols stack, count)
  else (set_buffers self (points self ++ pts3) (colors self ++ cols) stack, count).

(** [undo]: pops the last batch and truncates both buffers to its start. *)
Definition undo (self : t) : t * bool :=
  match Py.pop (undo_stack self) with
  | None => (self, false)
  | Some (rest, (start, count)) =>
      if (start =? 0)%nat
      then (set_buffers self [] [] rest, true)
      else (set_buffers self (firstn start (points self))
                             (firstn start (colors self)) rest, true)
  end.

(** [clear]. *)
Definition clear (self : t) : t * bool :=
  if (length (points self) * 3 =? 0)%nat then (self, false)
  else (set_buffers self [] []
          (undo_stack self ++ [(0%nat, length (points self))]), true).

(** [build_3d_layers]: [None] stands for the pair [(None, None)]. *)
Definition build_3d_layers (self : t) : option (list vec3 * list rgb8) :=
  if (length (points self) * 3 =? 0)%nat then None
  else
    let layers := Z.max 1 (export_layer_count self) in
    let step := abs (export_layer_height self) in
    let base_pts := points self in
    let base_cols :=
      map (fun '(r, g, b) =>
             (Np.astype_uint8 (r * 255), Np.astype_uint8 (g * 255),
              Np.astype_uint8 (b * 255))) (colors self) in
    let pts_list :=
      map (fun i => map (fun '(px, py, pz) =>
                           (px, py, (pz + Py.float_of_int i * step)%float))
                        base_pts) (Py.range layers) in
    let col_list := map (fun _ => base_cols) (Py.range layers) in
    Some (concat pts_list, concat col_list).


(** *** Binary export

    The file system is a finite map from paths to contents.  [open(path,
    "wb")] either fails with [OSError], leaving every file as it was (the
    empty path, an unwritable path, a missing directory), or creates or
    truncates the entry; which named paths can be opened is a parameter.  A
    file that was opened takes every write, and the [with] block closes it
    with whatever was written, also when an exception leaves the block.
    [struct.pack] with the native formats ["f"] and ["I"] lays numbers out
    in the platform's byte order: the two layouts are parameters as well. *)

Inductive exn : Type := OSError | StructError | IndexError.

Inductive result (A : Type) : Type :=
  | Returns (a : A)
  | Raises (e : exn).
Arguments Returns {A} a.
Arguments Raises {A} e.

Section BinaryExport.

(** Whether the environment lets a named path be opened for writing. *)
Variable can_open : string -> bool.
(** [struct.pack("f", v)]: the native format casts [v] to a 32-bit float
    (an infinity when [v] is too large) and copies its bytes; it accepts
    every float. *)
Variable pack_f : float -> list Byte.byte.
(** The bytes of a 32-bit unsigned integer in the platform's order. *)
Variable pack_I : Z -> list Byte.byte.

Definition pack_fff (p : vec3) : list Byte.byte :=
  let '(x, y, z) := p in pack_f x ++ pack_f y ++ pack_f z.

(** Whether [open(path, "wb")] succeeds: never on the empty path. *)
Definition opens (path : string) : bool :=
  negb (String.eqb path EmptyString) && can_open path.

(** [struct.pack("I", n)]: [None] (a [struct.error]) when [n] is not a
    32-bit unsigned integer. *)
Definition pack_uint (n : Z) : option (list Byte.byte) :=
  if ((0 <=? n) && (n <? 2 ^ 32))%Z then Some (pack_I n) else None.

(** [struct.pack("B", n)]. *)
Definition pack_B (n : Z) : option (list Byte.byte) :=
  if (0 <=? n)%Z then option_map (fun b => [b]) (Byte.of_N (Z.to_N n)) else None.

Definition pack_BBB (c : rgb8) : option (list Byte.byte) :=
  let '(r, g, b) := c in
  match pack_B r, pack_B g, pack_B b with
  | Some a, Some b, Some c => Some (a ++ b ++ c)
  | _, _, _ => None
  end.

(** What one iteration of the PLY loop writes, and the exception that
    interrupts it, if any. *)
Definition ply_record (p : vec3) (c : rgb8) : list Byte.byte * option exn :=
  let a := pack_fff p in
  match pack_BBB c with
  | None => (a, Some StructError)
  | Some b => (a ++ b, None)
  end.

(** The same for the PCD loop, with the colour packed into one integer. *)
Definition pcd_record (p : vec3) (c : rgb8) : list Byte.byte * option exn :=
  let a := pack_fff p in
  let '(r, g, b) := c in
  let rgb := Z.lor (Z.lor (Z.shiftl r 16) (Z.shiftl g 8)) b in
  match pack_uint rgb with
  | None => (a, Some StructError)
  | Some b => (a ++ b, None)
  end.

(** [for i in range(len(pts)): ...] over the rows [pts[i]], [cols[i]]. *)
Fixpoint write_rows (record : vec3 -> rgb8 -> list Byte.byte * option exn)
    (pts : list vec3) (cols : list rgb8) (idx : list nat)
    (written : list Byte.byte) : list Byte.byte * option exn :=
  match idx with
  | [] => (written, None)
  | i :: idx' =>
      match nth_error pts i, nth_error cols i with
      | Some p, Some c =>
          match record p c with
          | (bs, None) => write_rows record pts cols idx' (written ++ bs)
          | (bs, Some e) => (written ++ bs, Some e)
          end
      | _, _ => (written, Some IndexError)
      end
  end.

Definition unlines (l : list string) : string :=
  fold_right (fun s acc => s +:+ Py.nl +:+ acc) EmptyString l.

Definition ply_header (n : nat) : string :=
  unlines [ "ply"; "format binary_little_endian 1.0";
            "element vertex " +:+ Py.str_of_nat n;
            "property float x"; "property float y"; "property float z";
            "property uchar red"; "property uchar green"; "property uchar blue";
            "end_header" ].

Definition pcd_header (n : nat) : string :=
  unlines [ "# .PCD v0.7"; "VERSION 0.7"; "FIELDS x y z rgb";
            "SIZE 4 4 4 4"; "TYPE F F F U"; "COUNT 1 1 1 1";
            "WIDTH " +:+ Py.str_of_nat n; "HEIGHT 1";
            "VIEWPOINT 0 0 0 1 0 0 0";
            "POINTS " +:+ Py.str_of_nat n; "DATA binary" ].

(** The body shared by the two export methods once the geometry is built:
    the [with open(filename, "wb")] block and the [return True] after it. *)
Definition write_file (header : nat -> string)
    (record : vec3 -> rgb8 -> list Byte.byte * option exn)
    (pts : list vec3) (cols : list rgb8)
    (filename : string) (fs : gmap string (list Byte.byte))
  : result bool * gmap string (list Byte.byte) :=
  if opens filename then
    let '(content, e) :=
      write_rows record pts cols (seq 0 (length pts))
                 (Py.encode (header (length pts))) in
    (match e with None => Returns true | Some e => Raises e end,
     <[filename := content]> fs)
  else (Raises OSError, fs).

Definition save_ply (self : t) (filename : string)
    (fs : gmap string (list Byte.byte))
  : result bool * gmap string (list Byte.byte) :=
  match build_3d_layers self with
  | None => (Returns false, fs)
  | Some (pts, cols) => write_file ply_header ply_record pts cols filename fs
  end.

Definition save_pcd (self : t) (filename : string)
    (fs : gmap string (list Byte.byte))
  : result bool * gmap string (list Byte.byte) :=
  match build_3d_layers self with
  | None => (Returns false, fs)
  | Some (pts, cols) => write_file pcd_header pcd_record pts cols filename fs
  end.

End BinaryExport.

(** Assignment to the two export settings (done by the controller). *)
Definition set_export_settings (self : t) (height : float) (count : Z) : t :=
  {| points := points self;
     colors := colors self;
     undo_stack := undo_stack self;
     cloud_height := cloud_height self;
     export_layer_height := height;
     export_layer_count := count |}.

(** The integer [(r << 16) | (g << 8) | b] that [save_pcd] packs for a row
    of colours. *)
Definition pcd_rgb (c : rgb8) : Z :=
  let '(r, g, b) := c in
  Z.lor (Z.lor (Z.shiftl r 16) (Z.shiftl g 8)) b.

End PointCloud3D.

(** ** The interaction controller *)

Module PointCloudApp.

(** The callbacks handed to [root.after]. *)
Inductive callback : Type := perform_scheduled_redraw_cb.

(** [canvas.draw()] and [canvas.draw_idle()]. *)
Inductive draw_kind : Type := Draw | DrawIdle.

(** What the scatter artist shows: offsets and face colours. *)
Record scatter : Type := mk_scatter {
  offsets : list (float * float);
  facecolors : list vec3
}.

(** A matplotlib mouse event; [xdata] and [ydata] are set together, or are
    both [None] when the pointer is outside the axes. *)
Record mouse_event : Type := mk_event {
  button : Z;
  xydata : option (float * float)
}.

Record t : Type := mk {
  pc : PointCloud3D.t;
  points_per_cloud : Z;
  cloud_size : float;
  map_width : float;
  map_height : float;
  map_dpi : Z;
  redraw_scheduled : bool;
  redraw_interval_ms : Z;
  scatter_obj : option scatter;
  mouse_down : bool;
  last_pos : option (float * float);
  (** the timers registered with [root.after] and not yet fired, oldest first *)
  after_queue : list (Z * callback);
  (** the draw requests sent to the canvas, with what the axes showed *)
  canvas_draws : list (draw_kind * option scatter)
}.

Definition set_pc (self : t) (v : PointCloud3D.t) : t :=
  mk v (points_per_cloud self) (cloud_size self) (map_width self)
     (map_height self) (map_dpi self) (redraw_scheduled self)
     (redraw_interval_ms self) (scatter_obj self) (mouse_down self)
     (last_pos self) (after_queue self) (canvas_draws self).

Definition set_redraw_scheduled (self : t) (v : bool) : t :=
  mk (pc self) (points_per_cloud self) (cloud_size self) (map_width self)
     (map_height self) (map_dpi self) v
     (redraw_interval_ms self) (scatter_obj self) (mouse_down self)
     (last_pos self) (after_queue self) (canvas_draws self).

Definition set_mouse (self : t) (down : bool) (pos : option (float * float)) : t :=
  mk (pc self) (points_per_cloud self) (cloud_size self) (map_width self)
     (map_height self) (map_dpi self) (redraw_scheduled self)
     (redraw_interval_ms self) (scatter_obj self) down
     pos (after_queue self) (canvas_draws self).

Definition set_after_queue (self : t) (q : list (Z * callback)) : t :=
  mk (pc self) (points_per_cloud self) (cloud_size self) (map_width self)
     (map_height self) (map_dpi self) (redraw_scheduled self)
     (redraw_interval_ms self) (scatter_obj self) (mouse_down self)
     (last_pos self) q (canvas_draws self).

(** One redraw: the scatter artist is replaced and a draw request logged. *)
Definition set_display (self : t) (sc : option scatter) (k : draw_kind) : t :=
  mk (pc self) (points_per_cloud self) (cloud_size self) (map_width self)
     (map_height self) (map_dpi self) (redraw_scheduled self)
     (redraw_interval_ms self) sc (mouse_down self)
     (last_pos self) (after_queue self) (canvas_draws self ++ [(k, sc)]).

Definition MAX_DISPLAY : nat := Z.to_nat 30000.

(** [a[idx]]: the rows of [a] at the indices [idx].  NumPy raises on an index
    past the end; [update_view] only builds indices below [len(points)]. *)
Definition take_rows {A : Type} (a : list A) (idx : list nat) : list A :=
  omap (fun i => nth_error a i) idx.

(** The display indices of [update_view]. *)
Definition display_indices (total : nat) : list nat :=
  if (total <=? MAX_DISPLAY)%nat then seq 0 total
  else map (fun v => Z.to_nat (Np.astype_int v))
           (Np.linspace (Py.float_of_int 0)
                        (Py.float_of_int (Z.of_nat total - 1)) MAX_DISPLAY).

(** What [update_view] hands to the scatter artist for a store. *)
Definition view_of (p : PointCloud3D.t) : option scatter :=
  let total := length (PointCloud3D.points p) in
  if (total =? 0)%nat then None
  else
    let disp_idx := display_indices total in
    let pts2d := map (fun '(x, y, _) => (x, y))
                     (take_rows (PointCloud3D.points p) disp_idx) in
    let cols := take_rows (PointCloud3D.colors p) disp_idx in
    Some (mk_scatter pts2d cols).

(** [update_view(initial)]: with an empty store the artist is removed and
    the canvas redrawn idly; otherwise the artist is created or updated with
    the (possibly downsampled) rows, and the canvas drawn. *)
Definition update_view (self : t) (initial : bool) : t :=
  let total := length (PointCloud3D.points (pc self)) in
  if (total =? 0)%nat then set_display self None DrawIdle
  else set_display self (view_of (pc self)) (if initial then Draw else DrawIdle).

(** [PointCloudApp.__init__], toolkit widgets left out. *)
Definition init : t :=
  update_view
    (mk PointCloud3D.init 200 1.0 20.0 15.0 100 false 30 None false None [] [])
    true.

(** [add_cloud_quick]. *)
Definition add_cloud_quick (self : t) (x y : float) : t :=
  let self :=
    set_pc self (fst (PointCloud3D.add_square (pc self) x y (cloud_size self)
                        (points_per_cloud self) PointCloud3D.default_color)) in
  if negb (redraw_scheduled self) then
    let self := set_redraw_scheduled self true in
    set_after_queue self
      (after_queue self ++ [(redraw_interval_ms self, perform_scheduled_redraw_cb)])
  else self.

Definition _perform_scheduled_redraw (self : t) : t :=
  let self := set_redraw_scheduled self false in
  update_view self false.

(** The Tk event loop firing the oldest pending timer: the timer leaves
    the queue and its callback runs.  [None] when no timer is pending. *)
Definition fire_timer (self : t) : option t :=
  match after_queue self with
  | [] => None
  | (_, perform_scheduled_redraw_cb) :: q =>
      Some (_perform_scheduled_redraw (set_after_queue self q))
  end.

Definition mouse_press (self : t) (event : mouse_event) : t :=
  match xydata event with
  | Some (x, y) =>
      if (button event =? 1)%Z
      then add_cloud_quick (set_mouse self true (Some (x, y))) x y
      else self
  | None => self
  end.

Definition mouse_release (self : t) (event : mouse_event) : t :=
  set_mouse self false None.

Section Pointer.

(** [v ** 2] on a float is the C library's [pow(v, 2.0)].  It stays within
    a unit in the last place of the square but is not on every platform the
    rounded product [v * v], so the function is a parameter. *)
Variable pow2 : float -> float.

Definition mouse_move (self : t) (event : mouse_event) : t :=
  if negb (mouse_down self) then self
  else
    match xydata event with
    | None => self
    | Some (x, y) =>
        match last_pos self with
        | None => set_mouse self (mouse_down self) (Some (x, y))
        | Some (lx, ly) =>
            if (0.0005 <? pow2 (x - lx) + pow2 (y - ly))%float
            then add_cloud_quick (set_mouse self (mouse_down self) (Some (x, y))) x y
            else self
        end
    end.

End Pointer.

(** [PointCloudApp.undo]. *)
Definition undo (self : t) : t :=
  let '(p, ok) := PointCloud3D.undo (pc self) in
  let self := set_pc self p in
  if ok then update_view self false else self.

(** The values read from the settings entries ([IntVar.get] for the
    three counts, [DoubleVar.get] for the others). *)
Record settings_entries : Type := mk_entries {
  points_var : Z;
  size_var : float;
  width_var : float;
  height_var : float;
  dpi_var : Z;
  export_height_var : float;
  export_count_var : Z
}.

(** The message boxes shown to the user, with the values their text is
    formatted from. *)
Inductive notification : Type :=
  | InfoSettings (count : Z) (height : float)
  | ErrorNoPoints
  | InfoSaved (count : Z) (height : float) (total_h : float).

Definition set_settings (self : t) (p : PointCloud3D.t) (ppc : Z)
    (size width height : float) (dpi : Z) : t :=
  mk p ppc size width height dpi (redraw_scheduled self)
     (redraw_interval_ms self) (scatter_obj self) (mouse_down self)
     (last_pos self) (after_queue self) (canvas_draws self).

(** [update_settings]: the entries are clamped and stored, the view is
    redrawn and an information box is shown. *)
Definition update_settings (self : t) (entries : settings_entries)
  : t * notification :=
  let ppc := Z.max 1 (points_var entries) in
  let dpi := Z.max 30 (Z.min 800 (dpi_var entries)) in
  let p := PointCloud3D.set_export_settings (pc self)
             (abs (export_height_var entries))
             (Z.max 1 (export_count_var entries)) in
  let self := set_settings self p ppc (size_var entries) (width_var entries)
                (height_var entries) dpi in
  let self := update_view self false in
  (self, InfoSettings (PointCloud3D.export_layer_count (pc self))
                      (PointCloud3D.export_layer_height (pc self))).

(** [PointCloudApp.clear]; [answer] is what the confirmation box returns. *)
Definition clear (self : t) (answer : bool) : t :=
  if answer then
    let '(p, ok) := PointCloud3D.clear (pc self) in
    let self := set_pc self p in
    if ok then update_view self false else self
  else self.

Section Save.

Variable can_open : string -> bool.
Variable pack_f : float -> list Byte.byte.
Variable pack_I : Z -> list Byte.byte.

(** [PointCloudApp.save]; [path] is what the file dialog returns (the empty
    string when it is cancelled); the dialog is only opened for a non-empty
    store.  The result lists the message boxes shown. *)
Definition save (self : t) (fmt : string) (path : string)
    (fs : gmap string (list Byte.byte))
  : PointCloud3D.result (list notification) * gmap string (list Byte.byte) :=
  if (length (PointCloud3D.points (pc self)) * 3 =? 0)%nat
  then (PointCloud3D.Returns [ErrorNoPoints], fs)
  else if String.eqb path EmptyString then (PointCloud3D.Returns [], fs)
  else
    let '(r, fs') :=
      if String.eqb fmt "ply"
      then PointCloud3D.save_ply can_open pack_f (pc self) path fs
      else PointCloud3D.save_pcd can_open pack_f pack_I (pc self) path fs in
    match r with
    | PointCloud3D.Raises e => (PointCloud3D.Raises e, fs')
    | PointCloud3D.Returns ok =>
        if ok then
          let count := PointCloud3D.export_layer_count (pc self) in
          let height := PointCloud3D.export_layer_height (pc self) in
          (PointCloud3D.Returns
             [InfoSaved count height (Py.float_of_int count * height)%float], fs')
        else (PointCloud3D.Returns [], fs')
    end.

End Save.

End PointCloudApp.

(** ** Histories of store operations *)

Import PointCloud3D.

(** The arguments of one [add_square] call. *)
Record square_args : Type := mk_args {
  arg_x : float;
  arg_y : float;
  arg_size : float;
  arg_pts : Z;
  arg_color : vec3
}.

Definition add_square_with (s : PointCloud3D.t) (a : square_args) : PointCloud3D.t :=
  fst (add_square s (arg_x a) (arg_y a) (arg_size a) (arg_pts a) (arg_color a)).

(** A run of [add_square] calls, oldest first. *)
Definition appends (s : PointCloud3D.t) (l : list square_args) : PointCloud3D.t :=
  fold_left add_square_with l s.

(** [k] consecutive [undo()] calls: the final store, and whether every call
    returned [True]. *)
Fixpoint undo_n (k : nat) (s : PointCloud3D.t) : PointCloud3D.t * bool :=
  match k with
  | O => (s, true)
  | S k' =>
      let '(s1, ok) := undo s in
      let '(s2, ok') := undo_n k' s1 in
      (s2, ok && ok')
  end.

(** The operations of the store's public interface. *)
Inductive op : Type :=
  | OpAddSquare (a : square_args)
  | OpUndo
  | OpClear
  | OpBuild
  | OpSavePly (filename : string)
  | OpSavePcd (filename : string).

Section Runs.

Variable can_open : string -> bool.
Variable pack_f : float -> list Byte.byte.
Variable pack_I : Z -> list Byte.byte.

(** One operation on a store and a file system. *)
Definition run_op (st : PointCloud3D.t * gmap string (list Byte.byte)) (o : op)
  : PointCloud3D.t * gmap string (list Byte.byte) :=
  let '(s, fs) := st in
  match o with
  | OpAddSquare a => (add_square_with s a, fs)
  | OpUndo => (fst (undo s), fs)
  | OpClear => (fst (clear s), fs)
  | OpBuild => let _ := build_3d_layers s in (s, fs)
  | OpSavePly filename => (s, snd (save_ply can_open pack_f s filename fs))
  | OpSavePcd filename => (s, snd (save_pcd can_open pack_f pack_I s filename fs))
  end.

(** The states after each operation of a history. *)
Fixpoint trace (st : PointCloud3D.t * gmap string (list Byte.byte)) (ops : list op)
  : list (PointCloud3D.t * gmap string (list Byte.byte)) :=
  match ops with
  | [] => []
  | o :: ops' => let st' := run_op st o in st' :: trace st' ops'
  end.

End Runs.

(** Stores reachable from the initial one through the mutating methods. *)
Inductive reachable : PointCloud3D.t -> Prop :=
  | reach_init : reachable PointCloud3D.init
  | reach_add s a : reachable s -> reachable (add_square_with s a)
  | reach_undo s : reachable s -> reachable (fst (undo s))
  | reach_clear s : reachable s -> reachable (fst (clear s)).

(** Stores reachable without ever calling [clear]. *)
Inductive reachable_no_clear : PointCloud3D.t -> Prop :=
  | rnc_init : reachable_no_clear PointCloud3D.init
  | rnc_add s a : reachable_no_clear s -> reachable_no_clear (add_square_with s a)
  | rnc_undo s : reachable_no_clear s -> reachable_no_clear (fst (undo s)).

(** The start indices on the undo stack, bottom first. *)
Definition starts (s : PointCloud3D.t) : list nat := map fst (undo_stack s).

(** A list of naturals that never decreases. *)
Fixpoint nondecreasing (l : list nat) : bool :=
  match l with
  | a :: ((b :: _) as l') => (a <=? b)%nat && nondecreasing l'
  | _ => true
  end.

(** The batches of a stack tile the buffer: each starts where the previous
    one ends, the first at 0, and the last ends at [n]. *)
Inductive tiles : list (nat * nat) -> nat -> Prop :=
  | tiles_nil : tiles [] 0
  | tiles_snoc l n c : tiles l n -> tiles (l ++ [(n, c)]) (n + c).

(** The store invariant: index-aligned buffers. *)
Definition aligned (s : PointCloud3D.t) : Prop :=
  length (points s) = length (colors s).

(** "Rounded to integers" as the specification words it: the nearest
    integer to a finite float, ties to even ([np.rint]). *)
Definition round_to_integer (f : float) : option Z :=
  match Prim2SF f with
  | S754_zero _ => Some 0%Z
  | S754_finite s m e =>
      let v :=
        if (0 <=? e)%Z then Z.shiftl (Zpos m) e
        else
          let q := Z.shiftr (Zpos m) (- e) in
          let r := (Zpos m - Z.shiftl q (- e))%Z in
          let half := Z.shiftl 1 (- e - 1) in
          if (half <? r)%Z then (q + 1)%Z
          else if (r =? half)%Z && Z.odd q then (q + 1)%Z
          else q in
      Some (if s then (- v)%Z else v)
  | S754_infinity _ | S754_nan => None
  end.

(** A store holding one square of one point. *)
Definition one_point (color : vec3) : PointCloud3D.t :=
  fst (add_square PointCloud3D.init 0 0 1 1 color).

(** A run of [add_cloud_quick] calls at the given positions, oldest first. *)
Definition quick_appends (app : PointCloudApp.t) (l : list (float * float))
  : PointCloudApp.t :=
  fold_left (fun a p => PointCloudApp.add_cloud_quick a (fst p) (snd p)) l app.

(** The [add_square] arguments [add_cloud_quick] uses at a position. *)
Definition quick_args (app : PointCloudApp.t) (p : float * float) : square_args :=
  mk_args (fst p) (snd p) (PointCloudApp.cloud_size app)
          (PointCloudApp.points_per_cloud app) default_color.

(** The controller after a press of the primary button at (1, 1). *)
Definition dragging_app : PointCloudApp.t :=
  PointCloudApp.mouse_press PointCloudApp.init
    (PointCloudApp.mk_event 1 (Some (1, 1)%float)).

(** What a reader of the PCD body recovers from a packed colour:
    [(n >> 16) & 255], [(n >> 8) & 255] and [n & 255]. *)
Definition unpack_rgb (n : Z) : rgb8 :=
  (Z.land (Z.shiftr n 16) 255, Z.land (Z.shiftr n 8) 255, Z.land n 255).

(** The three channels of a colour row fit a byte. *)
Definition byte_channels (c : rgb8) : Prop :=
  let '(r, g, b) := c in
  (0 <= r < 256)%Z /\ (0 <= g < 256)%Z /\ (0 <= b < 256)%Z.

(** Every stored point lies in the plane z = 0. *)
Definition flat (s : PointCloud3D.t) : Prop :=
  Forall (fun p : vec3 => snd p = 0%float) (points s).

(** The events the controller reacts to: the three mouse callbacks, a
    pending timer firing, and the five buttons. *)
Inductive ui_event : Type :=
  | EvPress (e : PointCloudApp.mouse_event)
  | EvRelease (e : PointCloudApp.mouse_event)
  | EvMove (e : PointCloudApp.mouse_event)
  | EvTimer
  | EvUndo
  | EvClear (answer : bool)
  | EvApply (entries : PointCloudApp.settings_entries)
  | EvSave (fmt path : string)
  | EvRefresh.

Section Events.

Variable pow2 : float -> float.
Variable can_open : string -> bool.
Variable pack_f : float -> list Byte.byte.
Variable pack_I : Z -> list Byte.byte.

(** One event handled to completion, on the controller and the file system. *)
Definition handle (st : PointCloudApp.t * gmap string (list Byte.byte))
    (e : ui_event) : PointCloudApp.t * gmap string (list Byte.byte) :=
  let '(app, fs) := st in
  match e with
  | EvPress ev => (PointCloudApp.mouse_press app ev, fs)
  | EvRelease ev => (PointCloudApp.mouse_release app ev, fs)
  | EvMove ev => (PointCloudApp.mouse_move pow2 app ev, fs)
  | EvTimer =>
      match PointCloudApp.fire_timer app with
      | Some app' => (app', fs)
      | None => (app, fs)
      end
  | EvUndo => (PointCloudApp.undo app, fs)
  | EvClear answer => (PointCloudApp.clear app answer, fs)
  | EvApply entries => (fst (PointCloudApp.update_settings app entries), fs)
  | EvSave fmt path =>
      (app, snd (PointCloudApp.save can_open pack_f pack_I app fmt path fs))
  | EvRefresh => (PointCloudApp.update_view app false, fs)
  end.

(** A session: the events handled one after the other. *)
Definition run_events (st : PointCloudApp.t * gmap string (list Byte.byte))
    (evs : list ui_event) : PointCloudApp.t * gmap string (list Byte.byte) :=
  fold_left handle evs st.

End Events.

(** The debounce flag and the timer queue agree: the flag is set exactly
    when one redraw callback is pending, and no other timer ever is. *)
Definition pending_ok (app : PointCloudApp.t) : Prop :=
  (PointCloudApp.redraw_scheduled app = true /\
   PointCloudApp.after_queue app
   = [(PointCloudApp.redraw_interval_ms app, PointCloudApp.perform_scheduled_redraw_cb)])
  \/
  (PointCloudApp.redraw_scheduled app = false /\
   PointCloudApp.after_queue app = []).

(** The last draw request shows the current store. *)
Definition display_fresh (app : PointCloudApp.t) : Prop :=
  exists earlier k,
    PointCloudApp.canvas_draws app
    = earlier ++ [(k, PointCloudApp.view_of (PointCloudApp.pc app))].

(** The number of batches on the store's undo stack. *)
Definition batches (app : PointCloudApp.t) : nat :=
  length (undo_stack (PointCloudApp.pc app)).

(** The bottom batch of a non-empty stack starts at 0, and an empty stack
    goes with empty buffers. *)
Definition grounded_stack (s : PointCloud3D.t) : Prop :=
  match undo_stack s with
  | [] => points s = [] /\ colors s = []
  | (start, _) :: _ => start = 0%nat
  end.



(** The conversion of a stored channel to uint8 is defined: the truncation
    of [c * 255] lies in 0..255. *)
Definition channel_defined (c : float) : bool :=
  match Py.int_of_float (c * 255) with
  | Some z => ((0 <=? z) && (z <? 256))%Z
  | None => false
  end.

Definition color_defined (c : vec3) : bool :=
  let '(r, g, b) := c in
  channel_defined r && channel_defined g && channel_defined b.

(** [int(c * 255)], the channel truncated toward zero (0 where Python's
    [int] raises). *)
Definition truncated_channel (c : float) : Z :=
  match Py.int_of_float (c * 255) with
  | Some z => z
  | None => 0%Z
  end.

(** A C library whose [pow(v, 2.0)] is the rounded product. *)
Definition rounded_square (v : float) : float := (v * v)%float.

(** An environment in which every named path can be opened. *)
Definition any_path (path : string) : bool := true.

(** What the session invariant says of one controller state. *)
Definition redraw_inv (app : PointCloudApp.t) : Prop :=
  pending_ok app /\
  (PointCloudApp.redraw_scheduled app = false -> display_fresh app).



(** A layout that writes four zero bytes for every number. *)
Definition zero_packer {A : Type} (_ : A) : list Byte.byte :=
  [Byte.x00; Byte.x00; Byte.x00; Byte.x00].

(** * Properties *)

(** ** Lists and the Python primitives *)

Lemma pop_snoc {A : Type} (l : list A) (x : A) : Py.pop (l ++ [x]) = Some (l, x).
Proof.
  induction l as [|a l IH]; simpl; [reflexivity|].
  rewrite IH. reflexivity.
Qed.

Lemma pop_nil_inv {A : Type} (l : list A) : Py.pop l = None -> l = [].
Proof.
  destruct l as [|a l]; [reflexivity|]. simpl.
  destruct (Py.pop l) as [[r y]|]; discriminate.
Qed.

Lemma set_last_length (y : list float) (v : float) :
  length (Np.set_last y v) = length y.
Proof.
  destruct y as [|a y]; [reflexivity|].
  unfold Np.set_last. rewrite List.length_app.
  rewrite List.removelast_firstn_len, List.length_firstn. simpl. lia.
Qed.

Lemma linspace_length (a b : float) (n : nat) : length (Np.linspace a b n) = n.
Proof.
  unfold Np.linspace, Np.arange.
  repeat match goal with
         | |- context [if ?c then _ else _] => destruct c
         end;
    rewrite ?set_last_length, ?List.length_map, ?List.length_seq; reflexivity.
Qed.

Lemma concat_const_length {A B : Type} (f : B -> list A) (m : nat) (l : list B) :
  (forall b, length (f b) = m) -> length (concat (map f l)) = (length l * m)%nat.
Proof.
  intros Hf. induction l as [|b l IH]; simpl; [reflexivity|].
  rewrite List.length_app, IH, Hf. reflexivity.
Qed.

(** The number of rows generated for a target count: the square of the
    grid side. *)
Lemma square_points_length (x y size : float) (pts : Z) :
  length (square_points x y size pts)
  = (Z.to_nat (grid_side pts) * Z.to_nat (grid_side pts))%nat.
Proof.
  unfold square_points, Np.meshgrid, Np.ravel.
  set (n := Z.to_nat (grid_side pts)).
  rewrite List.length_map, List.length_combine.
  rewrite (concat_const_length (fun _ => _) n) by
    (intros _; rewrite List.length_map; apply linspace_length).
  rewrite (concat_const_length (fun yv => _) n) by
    (intros yv; rewrite !List.length_map; apply linspace_length).
  rewrite List.length_map, linspace_length. lia.
Qed.

Lemma grid_side_pos (pts : Z) : (1 <= grid_side pts)%Z.
Proof.
  unfold grid_side.
  destruct (Py.int_of_float (Np.sqrt_int (Z.max 1 pts))) as [n|]; simpl.
  - destruct (Z.ltb_spec n 1); lia.
  - lia.
Qed.

Lemma square_points_nonempty (x y size : float) (pts : Z) :
  (1 <= length (square_points x y size pts))%nat.
Proof.
  rewrite square_points_length.
  pose proof (grid_side_pos pts). nia.
Qed.

(** ** The store's mutators *)

Lemma set_buffers_same (s : PointCloud3D.t) :
  set_buffers s (points s) (colors s) (undo_stack s) = s.
Proof. destruct s; reflexivity. Qed.

(** On index-aligned buffers the two branches of [add_square] agree: the new
    rows go after the old ones and one batch is pushed. *)
Lemma add_square_spec (s : PointCloud3D.t) (x y size : float) (pts : Z) (color : vec3) :
  aligned s ->
  let sq := square_points x y size pts in
  add_square s x y size pts color
  = (set_buffers s (points s ++ sq) (colors s ++ repeat color (length sq))
       (undo_stack s ++ [(length (points s), length sq)]), length sq).
Proof.
  intros Hal sq. unfold add_square. fold sq.
  destruct (Nat.eqb_spec (length (points s)) 0) as [H0|H0]; [|reflexivity].
  unfold aligned in Hal.
  assert (Hp : points s = []) by (destruct (points s); [reflexivity|discriminate]).
  assert (Hc : colors s = []) by
    (destruct (colors s); [reflexivity|rewrite H0 in Hal; discriminate]).
  rewrite Hp, Hc. reflexivity.
Qed.

Lemma add_square_aligned (s : PointCloud3D.t) (a : square_args) :
  aligned s -> aligned (add_square_with s a).
Proof.
  intros Hal. unfold add_square_with.
  rewrite (add_square_spec _ _ _ _ _ _ Hal). unfold aligned in *. simpl.
  rewrite !List.length_app, List.repeat_length. lia.
Qed.

Lemma undo_aligned (s : PointCloud3D.t) : aligned s -> aligned (fst (undo s)).
Proof.
  intros Hal. unfold undo.
  destruct (Py.pop (undo_stack s)) as [[rest [start count]]|]; [|exact Hal].
  destruct (start =? 0)%nat; unfold aligned in *; simpl; [reflexivity|].
  rewrite !List.length_firstn. lia.
Qed.

Lemma clear_aligned (s : PointCloud3D.t) : aligned s -> aligned (fst (clear s)).
Proof.
  intros Hal. unfold clear.
  destruct (length (points s) * 3 =? 0)%nat; [exact Hal|reflexivity].
Qed.

Lemma init_aligned : aligned PointCloud3D.init.
Proof. reflexivity. Qed.

Lemma appends_aligned (l : list square_args) (s : PointCloud3D.t) :
  aligned s -> aligned (appends s l).
Proof.
  revert s. induction l as [|a l IH]; intros s Hal; simpl; [exact Hal|].
  apply IH, add_square_aligned, Hal.
Qed.

(** One [undo] right after one [add_square] gives back the store as it was. *)
Lemma undo_add_square (s : PointCloud3D.t) (a : square_args) :
  aligned s -> undo (add_square_with s a) = (s, true).
Proof.
  intros Hal. unfold add_square_with.
  rewrite (add_square_spec _ _ _ _ _ _ Hal). unfold undo. simpl.
  rewrite pop_snoc.
  destruct (Nat.eqb_spec (length (points s)) 0) as [H0|H0].
  - unfold aligned in Hal.
    assert (Hp : points s = []) by (destruct (points s); [reflexivity|discriminate]).
    assert (Hc : colors s = []) by
      (destruct (colors s); [reflexivity|rewrite H0 in Hal; discriminate]).
    destruct s; simpl in *; subst; reflexivity.
  - assert (Hp : forall l, firstn (length (points s)) (points s ++ l) = points s).
    { intros l. rewrite List.firstn_app, Nat.sub_diag, List.firstn_all.
      apply List.app_nil_r. }
    assert (Hc : forall l, firstn (length (points s)) (colors s ++ l) = colors s).
    { intros l. unfold aligned in Hal.
      rewrite Hal, List.firstn_app, Nat.sub_diag, List.firstn_all.
      apply List.app_nil_r. }
    rewrite Hp, Hc. destruct s; reflexivity.
Qed.

Lemma appends_snoc (s : PointCloud3D.t) (l : list square_args) (a : square_args) :
  appends s (l ++ [a]) = add_square_with (appends s l) a.
Proof. unfold appends. rewrite fold_left_app. reflexivity. Qed.

Lemma undo_n_appends (l : list square_args) (s : PointCloud3D.t) :
  aligned s -> undo_n (length l) (appends s l) = (s, true).
Proof.
  intros Hal. induction l as [|a l IH] using rev_ind; [reflexivity|].
  rewrite appends_snoc, List.length_app, Nat.add_1_r. simpl.
  rewrite (undo_add_square _ _ (appends_aligned l s Hal)), IH. reflexivity.
Qed.

Lemma undo_points_length (s : PointCloud3D.t) :
  (length (points (fst (undo s))) <= length (points s))%nat.
Proof.
  unfold undo.
  destruct (Py.pop (undo_stack s)) as [[rest [start count]]|]; [|reflexivity].
  destruct (start =? 0)%nat; simpl; [lia|].
  rewrite List.length_firstn. lia.
Qed.

Lemma undo_colors_length (s : PointCloud3D.t) :
  (length (colors (fst (undo s))) <= length (colors s))%nat.
Proof.
  unfold undo.
  destruct (Py.pop (undo_stack s)) as [[rest [start count]]|]; [|reflexivity].
  destruct (start =? 0)%nat; simpl; [lia|].
  rewrite List.length_firstn. lia.
Qed.

Lemma undo_n_points_length (k : nat) (s : PointCloud3D.t) :
  (length (points (fst (undo_n k s))) <= length (points s))%nat.
Proof.
  revert s. induction k as [|k IH]; intros s; simpl; [reflexivity|].
  pose proof (undo_points_length s) as H1.
  destruct (undo s) as [s1 ok]. specialize (IH s1).
  destruct (undo_n k s1) as [s2 ok']. simpl in *. lia.
Qed.

Lemma clear_points (s : PointCloud3D.t) : points (fst (clear s)) = [].
Proof.
  unfold clear.
  destruct (Nat.eqb_spec (length (points s) * 3) 0) as [H0|H0]; [|reflexivity].
  simpl. destruct (points s); [reflexivity|simpl in H0; lia].
Qed.

(** ** Undo and clear *)

(** C4: in a store built by [add_square] calls only, [undo()] after an
    [add_square] gives back the store as it was before that call, points and
    colors included, and [k] consecutive undos after [k] appends give back the
    store that preceded them, for every [k] up to the whole history; each of
    these undos returns [True]. *)
Theorem undo_restores_appends (l1 l2 : list square_args) :
  let s := appends PointCloud3D.init l1 in
  (forall a, undo (add_square_with s a) = (s, true)) /\
  undo_n (length l2) (appends s l2) = (s, true).
Proof.
  intros s.
  assert (Hal : aligned s) by apply appends_aligned, init_aligned.
  split.
  - intros a. apply undo_add_square, Hal.
  - apply undo_n_appends, Hal.
Qed.

(** C1 (as stated, refuted): after one point is added, [clear()] then
    [undo()] leaves the points buffer empty instead of giving the point
    back. *)
Lemma clear_then_undo_not_restored :
  let s := one_point default_color in
  snd (clear s) = true /\
  points s <> [] /\
  points (fst (undo (fst (clear s)))) = [] /\
  points (fst (undo (fst (clear s)))) <> points s /\
  colors (fst (undo (fst (clear s)))) <> colors s.
Proof. vm_compute. repeat split; discriminate. Qed.

(** C1 (amended): on a non-empty store [clear()] returns [True]; the
    [undo()] that follows returns [True] as well, pops the batch that
    [clear] recorded, so that the undo stack is the one before the clear,
    and leaves both buffers empty. *)
Theorem clear_then_undo_leaves_empty (s : PointCloud3D.t) :
  points s <> [] ->
  snd (clear s) = true /\
  undo (fst (clear s)) = (set_buffers s [] [] (undo_stack s), true).
Proof.
  intros Hne. unfold clear.
  destruct (Nat.eqb_spec (length (points s) * 3) 0) as [H0|H0].
  - destruct (points s); [congruence|simpl in H0; lia].
  - split; [reflexivity|]. unfold undo. simpl. rewrite pop_snoc. reflexivity.
Qed.

Lemma clear_then_undo_leaves_empty_witness :
  let s := one_point default_color in
  snd (clear s) = true /\
  undo (fst (clear s)) = (set_buffers s [] [] (undo_stack s), true).
Proof.
  apply (clear_then_undo_leaves_empty (one_point default_color)).
  vm_compute. discriminate.
Defined.

(** C6: [undo()] never lengthens a buffer; popping a batch whose start is
    0 empties both buffers whatever its count and whatever they held; and
    after [clear()] the points buffer is empty after any number of undos. *)
Theorem undo_only_truncates (s : PointCloud3D.t) :
  (length (points (fst (undo s))) <= length (points s))%nat /\
  (length (colors (fst (undo s))) <= length (colors s))%nat /\
  (forall p c rest count,
      undo (set_buffers s p c (rest ++ [(0%nat, count)]))
      = (set_buffers s [] [] rest, true)) /\
  (forall k, points (fst (undo_n k (fst (clear s)))) = []).
Proof.
  split; [apply undo_points_length|].
  split; [apply undo_colors_length|].
  split.
  - intros p c rest count. unfold undo. simpl. rewrite pop_snoc. reflexivity.
  - intros k. pose proof (undo_n_points_length k (fst (clear s))) as H.
    rewrite clear_points in H.
    destruct (points (fst (undo_n k (fst (clear s))))); [reflexivity|].
    simpl in H. lia.
Qed.

(** ** Export of an empty store *)

(** C9: with an empty points buffer [build_3d_layers] returns nothing and
    both export methods return [False] with the file system untouched. *)
Theorem empty_store_exports_nothing
    (can_open : string -> bool)
    (pack_f : float -> list Byte.byte)
    (pack_I : Z -> list Byte.byte)
    (s : PointCloud3D.t) (filename : string) (fs : gmap string (list Byte.byte)) :
  points s = [] ->
  build_3d_layers s = None /\
  save_ply can_open pack_f s filename fs = (Returns false, fs) /\
  save_pcd can_open pack_f pack_I s filename fs = (Returns false, fs).
Proof.
  intros He. unfold save_ply, save_pcd, build_3d_layers. rewrite He. simpl.
  repeat split.
Qed.

Lemma empty_store_exports_nothing_witness :
  build_3d_layers PointCloud3D.init = None /\
  save_ply any_path zero_packer PointCloud3D.init "cloud.ply" ∅
  = (Returns false, ∅) /\
  save_pcd any_path zero_packer zero_packer PointCloud3D.init "cloud.ply" ∅
  = (Returns false, ∅).
Proof.
  apply (empty_store_exports_nothing any_path zero_packer zero_packer
           PointCloud3D.init "cloud.ply" ∅).
  reflexivity.
Defined.

(** ** The length invariant *)

Lemma run_op_aligned can_open pack_f pack_I st o :
  aligned (fst st) -> aligned (fst (run_op can_open pack_f pack_I st o)).
Proof.
  destruct st as [s fs]. simpl. intros Hal.
  destruct o; simpl; auto using add_square_aligned, undo_aligned, clear_aligned.
Qed.

Lemma trace_aligned can_open pack_f pack_I ops st :
  aligned (fst st) ->
  Forall (fun st' => aligned (fst st')) (trace can_open pack_f pack_I st ops).
Proof.
  revert st. induction ops as [|o ops IH]; intros st Hal; simpl; constructor.
  - apply run_op_aligned, Hal.
  - apply IH, run_op_aligned, Hal.
Qed.

(** C10: along every history of store operations (add_square, undo, clear,
    build_3d_layers, save_ply, save_pcd) started on a fresh store, the points
    and colors buffers have the same length after every operation. *)
Theorem buffers_stay_aligned
    (can_open : string -> bool)
    (pack_f : float -> list Byte.byte)
    (pack_I : Z -> list Byte.byte)
    (ops : list op) (fs : gmap string (list Byte.byte)) :
  Forall (fun st => length (points (fst st)) = length (colors (fst st)))
         (trace can_open pack_f pack_I (PointCloud3D.init, fs) ops).
Proof.
  apply (trace_aligned can_open pack_f pack_I ops (PointCloud3D.init, fs)), init_aligned.
Qed.

(** ** The undo stack *)

Lemma nondecreasing_snoc (l : list nat) (n : nat) :
  nondecreasing l = true -> Forall (fun a => (a <= n)%nat) l ->
  nondecreasing (l ++ [n]) = true.
Proof.
  induction l as [|a l IH]; intros Hl Hn; [reflexivity|].
  destruct l as [|b l].
  - simpl. inversion Hn; subst. rewrite andb_true_r. apply Nat.leb_le. assumption.
  - simpl in Hl |- *. apply andb_true_iff in Hl as [Hab Hl].
    rewrite Hab. simpl. apply IH; [exact Hl|]. inversion Hn; assumption.
Qed.

Lemma tiles_bounds (l : list (nat * nat)) (n : nat) :
  tiles l n ->
  Forall (fun b => (fst b + snd b <= n)%nat) l /\
  nondecreasing (map fst l) = true.
Proof.
  induction 1 as [|l n c Ht [IHb IHs]]; [split; [constructor|reflexivity]|].
  split.
  - apply List.Forall_app. split.
    + eapply List.Forall_impl; [|exact IHb]. simpl. intros b Hb. lia.
    + constructor; [simpl; lia|constructor].
  - rewrite map_app. simpl. apply nondecreasing_snoc; [exact IHs|].
    apply List.Forall_map. eapply List.Forall_impl; [|exact IHb].
    simpl. intros b Hb. lia.
Qed.

Lemma tiles_snoc_inv (l : list (nat * nat)) (b : nat * nat) (n : nat) :
  tiles (l ++ [b]) n -> tiles l (fst b) /\ n = (fst b + snd b)%nat.
Proof.
  intros Ht. inversion Ht as [Hnil|l0 n0 c0 Ht0 Heq Hn].
  - destruct l; discriminate.
  - apply app_inj_tail in Heq as [-> <-]. simpl. split; [exact Ht0|reflexivity].
Qed.

Lemma pop_some_snoc {A : Type} (l rest : list A) (x : A) :
  Py.pop l = Some (rest, x) -> l = rest ++ [x].
Proof.
  revert rest x. induction l as [|a l IH]; intros rest x; simpl; [discriminate|].
  destruct (Py.pop l) as [[r y]|] eqn:Hp.
  - intros [= <- <-]. rewrite (IH r y eq_refl). reflexivity.
  - intros [= <- <-]. rewrite (pop_nil_inv l Hp). reflexivity.
Qed.

Lemma reachable_aligned (s : PointCloud3D.t) : reachable s -> aligned s.
Proof.
  induction 1; auto using init_aligned, add_square_aligned, undo_aligned, clear_aligned.
Qed.

(** Without [clear], the batches tile the points buffer. *)
Lemma no_clear_tiles (s : PointCloud3D.t) :
  reachable_no_clear s ->
  aligned s /\ tiles (undo_stack s) (length (points s)).
Proof.
  induction 1 as [|s a Hr [Hal Ht]|s Hr [Hal Ht]].
  - split; [reflexivity|constructor].
  - split; [apply add_square_aligned, Hal|].
    unfold add_square_with. rewrite (add_square_spec _ _ _ _ _ _ Hal). simpl.
    rewrite List.length_app. constructor. exact Ht.
  - split; [apply undo_aligned, Hal|].
    unfold undo. destruct (Py.pop (undo_stack s)) as [[rest [start count]]|] eqn:Hp;
      [|exact Ht].
    apply pop_some_snoc in Hp. rewrite Hp in Ht.
    apply tiles_snoc_inv in Ht as [Ht Hn]. simpl in Ht, Hn.
    destruct (Nat.eqb_spec start 0) as [->|Hs]; simpl; [exact Ht|].
    rewrite List.length_firstn, Hn, Nat.min_l by lia. exact Ht.
Qed.

(** C5 (as stated, refuted): two appends followed by [clear()] leave the
    start indices 0, 1, 0 on the stack, bottom to top, which is not a
    non-decreasing sequence. *)
Lemma clear_breaks_start_order :
  let a := mk_args 0 0 1 1 default_color in
  let s := fst (clear (add_square_with (add_square_with PointCloud3D.init a) a)) in
  reachable s /\ starts s = [0; 1; 0]%nat /\ nondecreasing (starts s) = false.
Proof.
  intros a s. split; [|split; vm_compute; reflexivity].
  apply reach_clear, reach_add, reach_add, reach_init.
Qed.

(** C5 (amended): in every reachable store, the batch that [add_square]
    pushes is (len(points) before the call, count added), so that its
    start + count is len(points) when the call returns, and the batch that
    [clear] pushes is (0, len(points)), which satisfies
    start + count <= len(points) when it is pushed; and in every store
    reached by [add_square] and [undo] calls only, the start indices on the
    stack never decrease from bottom to top and every batch on the stack
    satisfies start + count <= len(points). *)
Theorem undo_stack_ordered_without_clear (s : PointCloud3D.t) :
  reachable s ->
  (forall x y size pts color,
      let r := add_square s x y size pts color in
      undo_stack (fst r) = undo_stack s ++ [(length (points s), snd r)] /\
      (length (points s) + snd r)%nat = length (points (fst r))) /\
  (points s <> [] ->
   undo_stack (fst (clear s)) = undo_stack s ++ [(0%nat, length (points s))]) /\
  (reachable_no_clear s ->
   nondecreasing (starts s) = true /\
   Forall (fun b => (fst b + snd b <= length (points s))%nat) (undo_stack s)).
Proof.
  intros Hr. pose proof (reachable_aligned s Hr) as Hal.
  split; [|split].
  - intros x y size pts color r. subst r.
    rewrite (add_square_spec _ _ _ _ _ _ Hal). simpl.
    rewrite List.length_app. split; reflexivity.
  - intros Hne. unfold clear.
    destruct (Nat.eqb_spec (length (points s) * 3) 0) as [H0|H0]; [|reflexivity].
    destruct (points s); [congruence|simpl in H0; lia].
  - intros Hnc. destruct (no_clear_tiles s Hnc) as [_ Ht].
    destruct (tiles_bounds _ _ Ht) as [Hb Hs]. split; assumption.
Qed.

Lemma undo_stack_ordered_without_clear_witness :
  let s := add_square_with PointCloud3D.init (mk_args 0 0 1 1 default_color) in
  (forall x y size pts color,
      let r := add_square s x y size pts color in
      undo_stack (fst r) = undo_stack s ++ [(length (points s), snd r)] /\
      (length (points s) + snd r)%nat = length (points (fst r))) /\
  (points s <> [] ->
   undo_stack (fst (clear s)) = undo_stack s ++ [(0%nat, length (points s))]) /\
  (reachable_no_clear s ->
   nondecreasing (starts s) = true /\
   Forall (fun b => (fst b + snd b <= length (points s))%nat) (undo_stack s)).
Proof.
  apply (undo_stack_ordered_without_clear
           (add_square_with PointCloud3D.init (mk_args 0 0 1 1 default_color))).
  apply reach_add, reach_init.
Defined.

(** ** The layered export *)

Lemma concat_blocks_nth {A : Type} (f : nat -> list A) (M a n i k : nat) :
  (forall j, length (f j) = M) -> (i < n)%nat -> (k < M)%nat ->
  nth_error (concat (map f (seq a n))) (i * M + k) = nth_error (f (a + i)%nat) k.
Proof.
  intros Hf. revert a i. induction n as [|n IH]; intros a i Hi Hk; [lia|].
  simpl. destruct i as [|i].
  - simpl. rewrite nth_error_app1 by (rewrite Hf; lia).
    rewrite Nat.add_0_r. reflexivity.
  - rewrite nth_error_app2 by (rewrite Hf; lia).
    rewrite Hf. replace (S i * M + k - M)%nat with (i * M + k)%nat by lia.
    rewrite IH by lia. f_equal. f_equal. lia.
Qed.

Lemma range_blocks_nth {A : Type} (g : Z -> list A) (M : nat) (n : Z) (i k : nat) :
  (forall j, length (g j) = M) -> (i < Z.to_nat n)%nat -> (k < M)%nat ->
  nth_error (concat (map g (Py.range n))) (i * M + k) = nth_error (g (Z.of_nat i)) k.
Proof.
  intros Hg Hi Hk. unfold Py.range. rewrite map_map.
  apply (concat_blocks_nth (fun j => g (Z.of_nat j)) M 0 (Z.to_nat n) i k);
    [intros j; apply Hg|exact Hi|exact Hk].
Qed.

Lemma range_blocks_length {A : Type} (g : Z -> list A) (M : nat) (n : Z) :
  (forall j, length (g j) = M) ->
  length (concat (map g (Py.range n))) = (M * Z.to_nat n)%nat.
Proof.
  intros Hg. rewrite (concat_const_length g M) by exact Hg.
  unfold Py.range. rewrite List.length_map, List.length_seq. lia.
Qed.

(** Where the conversion is defined, [astype(np.uint8)] is [int]. *)
Lemma astype_uint8_defined (c : float) :
  channel_defined c = true -> Np.astype_uint8 (c * 255) = truncated_channel c.
Proof.
  unfold channel_defined, Np.astype_uint8, truncated_channel.
  destruct (Py.int_of_float (c * 255)) as [z|]; [|discriminate].
  intros H. apply andb_true_iff in H as [H0 H1].
  apply Z.leb_le in H0. apply Z.ltb_lt in H1.
  assert (H31 : (2 ^ 31 = 2147483648)%Z) by reflexivity.
  destruct (Z.leb_spec (- 2 ^ 31) z); [|lia].
  destruct (Z.ltb_spec z (2 ^ 31)); [|lia].
  simpl. apply Z.mod_small. lia.
Qed.

(** C2 (as stated, refuted): a stored red channel of 0.25 is exported as
    63, the truncation of 63.75, while rounding gives 64. *)
Lemma export_colors_not_rounded :
  let s := one_point (0.25, 0.5, 0.75)%float in
  points s <> [] /\
  option_map (fun r => nth_error (snd r) 0) (build_3d_layers s)
  = Some (Some (63, 127, 191)%Z) /\
  round_to_integer (0.25 * 255) = Some 64%Z /\
  Some (Np.astype_uint8 (0.25 * 255)) <> round_to_integer (0.25 * 255).
Proof. vm_compute. repeat split; discriminate. Qed.

(** C2 (amended): for a non-empty store of M points, with
    L = max(1, export_layer_count) and H = |export_layer_height|,
    [build_3d_layers] returns M*L points (M*export_layer_count when that
    count is at least 1); point k of layer i is the stored point k with
    i*H added to its z, so that layers differ in z only; the colours of
    every layer are those of layer 0; and in every layer
    a stored colour whose channels c all have 0 <= int(c * 255) <= 255
    (where the conversion to uint8 is defined; this holds as soon as
    0 <= c * 255 < 256) is exported as the three integers int(c * 255): the
    channels multiplied by 255 and truncated toward zero, not rounded. *)
Theorem export_layers_truncated_colors (s : PointCloud3D.t) :
  points s <> [] ->
  let M := length (points s) in
  let C := length (colors s) in
  let L := Z.to_nat (Z.max 1 (export_layer_count s)) in
  let H := abs (export_layer_height s) in
  exists pts cols,
    build_3d_layers s = Some (pts, cols) /\
    length pts = (M * L)%nat /\
    ((1 <= export_layer_count s)%Z ->
     Z.of_nat (length pts) = (Z.of_nat M * export_layer_count s)%Z) /\
    length cols = (C * L)%nat /\
    (forall i k x y z, (i < L)%nat ->
       nth_error (points s) k = Some (x, y, z) ->
       nth_error pts (i * M + k)
       = Some (x, y, (z + Py.float_of_int (Z.of_nat i) * H)%float)) /\
    (forall i k, (i < L)%nat -> (k < C)%nat ->
       nth_error cols (i * C + k) = nth_error cols k) /\
    (forall i k r g b, (i < L)%nat ->
       nth_error (colors s) k = Some (r, g, b) ->
       color_defined (r, g, b) = true ->
       nth_error cols (i * C + k)
       = Some (truncated_channel r, truncated_channel g, truncated_channel b)).
Proof.
  intros Hne M C L H. unfold build_3d_layers.
  destruct (Nat.eqb_spec (length (points s) * 3) 0) as [H0|H0].
  { destruct (points s); [congruence|simpl in H0; lia]. }
  set (layer := fun i : Z =>
         map (fun '(px, py, pz) => (px, py, (pz + Py.float_of_int i * H)%float))
             (points s)).
  set (base_cols := map (fun '(r, g, b) =>
                           (Np.astype_uint8 (r * 255), Np.astype_uint8 (g * 255),
                            Np.astype_uint8 (b * 255))) (colors s)).
  exists (concat (map layer (Py.range (Z.max 1 (export_layer_count s))))),
         (concat (map (fun _ => base_cols) (Py.range (Z.max 1 (export_layer_count s))))).
  split; [reflexivity|].
  assert (HlenP : forall j, length (layer j) = M)
    by (intros j; apply List.length_map).
  assert (HlenC : forall j : Z, length ((fun _ => base_cols) j) = C)
    by (intros j; apply List.length_map).
  assert (Hpts : length (concat (map layer (Py.range (Z.max 1 (export_layer_count s)))))
                 = (M * L)%nat) by (apply range_blocks_length, HlenP).
  split; [exact Hpts|]. split.
  { intros HL. rewrite Hpts. subst L.
    rewrite Nat2Z.inj_mul, Z2Nat.id, Z.max_r by lia. reflexivity. }
  split; [apply (range_blocks_length (fun _ => base_cols)), HlenC|].
  split.
  - intros i k x y z Hi Hk.
    assert (Hk' : (k < M)%nat) by (apply nth_error_Some; rewrite Hk; discriminate).
    rewrite (range_blocks_nth layer M _ i k HlenP Hi Hk').
    unfold layer. rewrite nth_error_map, Hk. reflexivity.
  - split.
    { intros i k Hi Hk.
      assert (H0L : (0 < L)%nat) by (subst L; lia).
      rewrite (range_blocks_nth (fun _ => base_cols) C _ i k HlenC Hi Hk).
      exact (eq_sym (range_blocks_nth (fun _ => base_cols) C _ 0 k HlenC H0L Hk)). }
    intros i k r g b Hi Hk Hdef.
    assert (Hk' : (k < C)%nat) by (apply nth_error_Some; rewrite Hk; discriminate).
    rewrite (range_blocks_nth (fun _ => base_cols) C _ i k HlenC Hi Hk').
    unfold base_cols. rewrite nth_error_map, Hk. simpl.
    unfold color_defined in Hdef.
    apply andb_true_iff in Hdef as [Hdef Hb]. apply andb_true_iff in Hdef as [Hr Hg].
    rewrite (astype_uint8_defined r Hr), (astype_uint8_defined g Hg),
      (astype_uint8_defined b Hb). reflexivity.
Qed.

Lemma export_layers_truncated_colors_witness :
  let s := one_point (0.25, 0.5, 0.75)%float in
  points s <> [] /\
  color_defined (0.25, 0.5, 0.75)%float = true /\
  exists pts cols,
    build_3d_layers s = Some (pts, cols) /\
    length pts = 10%nat /\
    length cols = 10%nat /\
    nth_error pts 3 = Some (-0.5, -0.5, 0 + Py.float_of_int 3 * 0.25)%float /\
    nth_error cols 3 = Some (63, 127, 191)%Z.
Proof.
  intros s.
  assert (Hne : points s <> []) by (vm_compute; discriminate).
  split; [exact Hne|]. split; [reflexivity|].
  destruct (export_layers_truncated_colors s Hne)
    as (pts & cols & Hb & Hlp & _ & Hlc & Hp & _ & Hc).
  exists pts, cols. split; [exact Hb|].
  split; [exact Hlp|]. split; [exact Hlc|]. split.
  - apply (Hp 3%nat 0%nat); [vm_compute; lia|reflexivity].
  - apply (Hc 3%nat 0%nat 0.25%float 0.5%float 0.75%float);
      [vm_compute; lia|reflexivity|reflexivity].
Defined.

(** ** Float comparisons *)

Lemma SFcompare_antisym (a b : spec_float) :
  SFcompare b a = option_map CompOpp (SFcompare a b).
Proof.
  destruct a as [sa|sa| |sa ma ea], b as [sb|sb| |sb mb eb];
    try destruct sa; try destruct sb; simpl; try reflexivity;
    assert (Hm : Pos.compare_cont Eq mb ma = CompOpp (Pos.compare_cont Eq ma mb))
      by (rewrite Pos.compare_cont_antisym; reflexivity);
    rewrite (Z.compare_antisym ea eb), Hm;
    destruct (ea ?= eb)%Z; simpl; try reflexivity;
    destruct (Pos.compare_cont Eq ma mb); reflexivity.
Qed.

(** A float that is at most the threshold does not exceed it. *)
Lemma leb_not_ltb (a b : float) : (a <=? b)%float = true -> (b <? a)%float = false.
Proof.
  rewrite leb_spec, ltb_spec. unfold SFleb, SFltb.
  rewrite (SFcompare_antisym (Prim2SF a) (Prim2SF b)).
  destruct (SFcompare (Prim2SF a) (Prim2SF b)) as [[| |]|]; simpl; congruence.
Qed.

(** ** The controller *)

Lemma add_square_stack (s : PointCloud3D.t) (x y size : float) (pts : Z) (color : vec3) :
  undo_stack (fst (add_square s x y size pts color))
  = undo_stack s ++ [(length (points s), length (square_points x y size pts))].
Proof. unfold add_square. destruct (length (points s) =? 0)%nat; reflexivity. Qed.

(** C8: while dragging with the recorded position (lx, ly), a move to
    (x, y) whose squared displacement, the float the interpreter computes
    for (x-lx)**2 + (y-ly)**2, is at most 0.0005 changes nothing, the
    recorded position included; a move whose squared displacement exceeds
    0.0005 records (x, y) and appends one cloud at (x, y): the store is the
    result of one [add_square] there and the undo stack has one more batch.
    This holds whatever the C library's [pow] returns for the two squares. *)
Theorem drag_sampling (pow2 : float -> float)
    (app : PointCloudApp.t) (ev : PointCloudApp.mouse_event)
    (lx ly x y : float) :
  PointCloudApp.mouse_down app = true ->
  PointCloudApp.last_pos app = Some (lx, ly) ->
  PointCloudApp.xydata ev = Some (x, y) ->
  let d2 := (pow2 (x - lx) + pow2 (y - ly))%float in
  ((d2 <=? 0.0005)%float = true -> PointCloudApp.mouse_move pow2 app ev = app) /\
  ((0.0005 <? d2)%float = true ->
   let app' := PointCloudApp.mouse_move pow2 app ev in
   PointCloudApp.last_pos app' = Some (x, y) /\
   PointCloudApp.mouse_down app' = true /\
   PointCloudApp.pc app'
   = fst (add_square (PointCloudApp.pc app) x y (PointCloudApp.cloud_size app)
            (PointCloudApp.points_per_cloud app) default_color) /\
   undo_stack (PointCloudApp.pc app')
   = undo_stack (PointCloudApp.pc app)
     ++ [(length (points (PointCloudApp.pc app)),
          length (square_points x y (PointCloudApp.cloud_size app)
                    (PointCloudApp.points_per_cloud app)))]).
Proof.
  intros Hdown Hlast Hev d2. unfold PointCloudApp.mouse_move.
  rewrite Hdown, Hev, Hlast. simpl. fold d2. split.
  - intros Hle. rewrite (leb_not_ltb _ _ Hle). reflexivity.
  - intros Hgt. rewrite Hgt. unfold PointCloudApp.add_cloud_quick. simpl.
    destruct (PointCloudApp.redraw_scheduled app); simpl;
      rewrite ?add_square_stack, ?Hdown; repeat split; reflexivity.
Qed.

Lemma drag_sampling_witness :
  let app := dragging_app in
  let near := PointCloudApp.mk_event 0 (Some (1.01, 1)%float) in
  let far := PointCloudApp.mk_event 0 (Some (1.5, 1)%float) in
  ((rounded_square (1.01 - 1) + rounded_square (1 - 1) <=? 0.0005)%float = true /\
   PointCloudApp.mouse_move rounded_square app near = app) /\
  ((0.0005 <? rounded_square (1.5 - 1) + rounded_square (1 - 1))%float = true /\
   let app' := PointCloudApp.mouse_move rounded_square app far in
   PointCloudApp.last_pos app' = Some (1.5, 1)%float /\
   PointCloudApp.mouse_down app' = true /\
   PointCloudApp.pc app'
   = fst (add_square (PointCloudApp.pc app) 1.5 1 (PointCloudApp.cloud_size app)
            (PointCloudApp.points_per_cloud app) default_color) /\
   undo_stack (PointCloudApp.pc app')
   = undo_stack (PointCloudApp.pc app)
     ++ [(length (points (PointCloudApp.pc app)),
          length (square_points 1.5 1 (PointCloudApp.cloud_size app)
                    (PointCloudApp.points_per_cloud app)))]).
Proof.
  intros app near far. split; (split; [reflexivity|]).
  - apply (proj1 (drag_sampling rounded_square app near 1 1 1.01 1
                    eq_refl eq_refl eq_refl)).
    reflexivity.
  - apply (proj2 (drag_sampling rounded_square app far 1 1 1.5 1
                    eq_refl eq_refl eq_refl)).
    reflexivity.
Defined.

Lemma update_view_idle (self : PointCloudApp.t) :
  PointCloudApp.update_view self false
  = PointCloudApp.set_display self (PointCloudApp.view_of (PointCloudApp.pc self))
      PointCloudApp.DrawIdle.
Proof.
  unfold PointCloudApp.update_view, PointCloudApp.view_of.
  destruct (length (points (PointCloudApp.pc self)) =? 0)%nat; reflexivity.
Qed.

(** While a redraw is pending, [add_cloud_quick] only touches the store. *)
Lemma add_cloud_quick_pending (a : PointCloudApp.t) (p : float * float) :
  PointCloudApp.redraw_scheduled a = true ->
  PointCloudApp.add_cloud_quick a (fst p) (snd p)
  = PointCloudApp.set_pc a (add_square_with (PointCloudApp.pc a) (quick_args a p)).
Proof.
  intros Hs. unfold PointCloudApp.add_cloud_quick. simpl. rewrite Hs. reflexivity.
Qed.

Lemma quick_appends_pending (l : list (float * float)) (a : PointCloudApp.t) :
  PointCloudApp.redraw_scheduled a = true ->
  quick_appends a l
  = PointCloudApp.set_pc a (appends (PointCloudApp.pc a) (map (quick_args a) l)).
Proof.
  revert a. induction l as [|p l IH]; intros a Hs; simpl.
  - destruct a; reflexivity.
  - rewrite (add_cloud_quick_pending a p Hs).
    rewrite IH by exact Hs. reflexivity.
Qed.

(** ** Redraw debouncing *)

(** C7: with no redraw pending, the first of N >= 1 appends sets the flag
    and registers one callback with the 30-unit delay; the other N-1 appends
    register nothing; when the timer fires the flag is cleared, the queue is
    empty and exactly one draw request is logged, showing the store with all
    N appends; and the next append registers exactly one callback again. *)
Theorem debounce_coalesces (app : PointCloudApp.t) (p0 : float * float)
    (l : list (float * float)) :
  PointCloudApp.redraw_scheduled app = false ->
  PointCloudApp.after_queue app = [] ->
  PointCloudApp.redraw_interval_ms app = 30%Z ->
  let cb := PointCloudApp.perform_scheduled_redraw_cb in
  let a1 := PointCloudApp.add_cloud_quick app (fst p0) (snd p0) in
  let aN := quick_appends a1 l in
  PointCloudApp.redraw_scheduled a1 = true /\
  PointCloudApp.after_queue a1 = [(30%Z, cb)] /\
  PointCloudApp.redraw_scheduled aN = true /\
  PointCloudApp.after_queue aN = [(30%Z, cb)] /\
  PointCloudApp.canvas_draws aN = PointCloudApp.canvas_draws app /\
  PointCloudApp.pc aN
  = appends (PointCloudApp.pc app) (map (quick_args app) (p0 :: l)) /\
  exists aF,
    PointCloudApp.fire_timer aN = Some aF /\
    PointCloudApp.redraw_scheduled aF = false /\
    PointCloudApp.after_queue aF = [] /\
    PointCloudApp.pc aF = PointCloudApp.pc aN /\
    PointCloudApp.canvas_draws aF
    = PointCloudApp.canvas_draws app
      ++ [(PointCloudApp.DrawIdle, PointCloudApp.view_of (PointCloudApp.pc aN))] /\
    forall x y,
      let a' := PointCloudApp.add_cloud_quick aF x y in
      PointCloudApp.redraw_scheduled a' = true /\
      PointCloudApp.after_queue a' = [(30%Z, cb)].
Proof.
  intros Hs Hq Hi cb a1 aN.
  assert (Ha1 : a1 = PointCloudApp.set_after_queue
                       (PointCloudApp.set_redraw_scheduled
                          (PointCloudApp.set_pc app
                             (add_square_with (PointCloudApp.pc app) (quick_args app p0)))
                          true)
                       [(30%Z, cb)]).
  { subst a1. unfold PointCloudApp.add_cloud_quick. simpl.
    rewrite Hs, Hq, Hi. reflexivity. }
  assert (HaN : aN = PointCloudApp.set_pc a1
                       (appends (PointCloudApp.pc a1) (map (quick_args a1) l))).
  { subst aN. apply quick_appends_pending. rewrite Ha1. reflexivity. }
  split; [rewrite Ha1; reflexivity|].
  split; [rewrite Ha1; reflexivity|].
  split; [rewrite HaN, Ha1; reflexivity|].
  split; [rewrite HaN, Ha1; reflexivity|].
  split; [rewrite HaN, Ha1; reflexivity|].
  split; [rewrite HaN, Ha1; reflexivity|].
  unfold PointCloudApp.fire_timer.
  assert (HqN : PointCloudApp.after_queue aN = [(30%Z, cb)])
    by (rewrite HaN, Ha1; reflexivity).
  rewrite HqN. eexists. split; [reflexivity|].
  unfold PointCloudApp._perform_scheduled_redraw. rewrite update_view_idle.
  split; [reflexivity|]. split; [reflexivity|]. split; [reflexivity|].
  split; [simpl; rewrite HaN, Ha1; reflexivity|].
  intros x y. unfold PointCloudApp.add_cloud_quick. simpl.
  rewrite HaN, Ha1. simpl. rewrite Hi. split; reflexivity.
Qed.

Lemma debounce_coalesces_witness :
  let app := PointCloudApp.init in
  let p0 := (1, 1)%float in
  let l := [(2, 1)%float; (3, 1)%float] in
  let cb := PointCloudApp.perform_scheduled_redraw_cb in
  let a1 := PointCloudApp.add_cloud_quick app (fst p0) (snd p0) in
  let aN := quick_appends a1 l in
  PointCloudApp.redraw_scheduled a1 = true /\
  PointCloudApp.after_queue a1 = [(30%Z, cb)] /\
  PointCloudApp.redraw_scheduled aN = true /\
  PointCloudApp.after_queue aN = [(30%Z, cb)] /\
  PointCloudApp.canvas_draws aN = PointCloudApp.canvas_draws app /\
  PointCloudApp.pc aN
  = appends (PointCloudApp.pc app) (map (quick_args app) (p0 :: l)) /\
  exists aF,
    PointCloudApp.fire_timer aN = Some aF /\
    PointCloudApp.redraw_scheduled aF = false /\
    PointCloudApp.after_queue aF = [] /\
    PointCloudApp.pc aF = PointCloudApp.pc aN /\
    PointCloudApp.canvas_draws aF
    = PointCloudApp.canvas_draws app
      ++ [(PointCloudApp.DrawIdle, PointCloudApp.view_of (PointCloudApp.pc aN))] /\
    forall x y,
      let a' := PointCloudApp.add_cloud_quick aF x y in
      PointCloudApp.redraw_scheduled a' = true /\
      PointCloudApp.after_queue a' = [(30%Z, cb)].
Proof.
  apply (debounce_coalesces PointCloudApp.init (1, 1)%float
           [(2, 1)%float; (3, 1)%float]);
    reflexivity.
Defined.

(** ** The generated square *)

(** C3 (the part the code misses): with a target of one point the square
    degenerates to the first sample of each axis, [linspace]'s start, so the
    only point is placed at the lower-left corner (x - size/2, y - size/2, 0)
    of the square; for a unit square centred on the origin that is
    (-0.5, -0.5, 0) and not the centre (0, 0, 0).  The count is 1. *)
Theorem single_point_square_at_corner :
  (forall x y size : float,
      square_points x y size 1
      = [((0 * (size / 2 - - size / 2) + - size / 2 + x)%float,
          (0 * (size / 2 - - size / 2) + - size / 2 + y)%float, 0%float)]) /\
  add_square PointCloud3D.init 0 0 1 1 default_color
  = (set_buffers PointCloud3D.init [((-0.5)%float, (-0.5)%float, 0%float)]
       [default_color] [(0%nat, 1%nat)], 1%nat) /\
  (forall px py pz : float,
      nth_error (points (fst (add_square PointCloud3D.init 0 0 1 1 default_color))) 0
      = Some (px, py, pz) ->
      (px =? 0)%float = false /\ (py =? 0)%float = false /\ (pz =? 0)%float = true).
Proof.
  split; [intros x y size; vm_compute; reflexivity|].
  split; [vm_compute; reflexivity|].
  intros px py pz. vm_compute. intros [= <- <- <-]. repeat split.
Qed.

Lemma combine_app_same {A B : Type} (l1 l2 : list A) (m1 m2 : list B) :
  length l1 = length m1 ->
  combine (l1 ++ l2) (m1 ++ m2) = combine l1 m1 ++ combine l2 m2.
Proof.
  revert m1. induction l1 as [|a l1 IH]; intros [|b m1] Hlen; simpl in *;
    try discriminate; [reflexivity|].
  rewrite IH by lia. reflexivity.
Qed.

Lemma combine_const {A B : Type} (l : list A) (b : B) :
  combine l (map (fun _ => b) l) = map (fun a => (a, b)) l.
Proof. induction l as [|a l IH]; simpl; [reflexivity|]. rewrite IH. reflexivity. Qed.

Lemma meshgrid_pairs (xs ys : list float) :
  combine (Np.ravel (fst (Np.meshgrid xs ys))) (Np.ravel (snd (Np.meshgrid xs ys)))
  = concat (map (fun yv => map (fun xv => (xv, yv)) xs) ys).
Proof.
  unfold Np.meshgrid, Np.ravel. simpl.
  induction ys as [|yv ys IH]; simpl; [reflexivity|].
  rewrite combine_app_same by (rewrite List.length_map; reflexivity).
  rewrite combine_const, IH. reflexivity.
Qed.

(** The rows of a generated square, row by row: for each sample [yv] of the
    y axis, the samples of the x axis paired with it, at height 0. *)
Lemma square_points_grid (x y size : float) (pts : Z) :
  let n := Z.to_nat (grid_side pts) in
  let xs := map (fun v => (v + x)%float) (Np.linspace (- size / 2) (size / 2) n) in
  let ys := map (fun v => (v + y)%float) (Np.linspace (- size / 2) (size / 2) n) in
  square_points x y size pts
  = concat (map (fun yv => map (fun xv => (xv, yv, 0%float)) xs) ys).
Proof.
  intros n xs ys. unfold square_points. fold n. fold xs. fold ys.
  change (let '(xx, yy) := Np.meshgrid xs ys in
          map (fun '(a, b) => (a, b, 0%float)) (combine (Np.ravel xx) (Np.ravel yy)))
    with (map (fun '(a, b) => (a, b, 0%float))
              (combine (Np.ravel (fst (Np.meshgrid xs ys)))
                       (Np.ravel (snd (Np.meshgrid xs ys))))).
  rewrite meshgrid_pairs, concat_map, map_map.
  f_equal. apply map_ext. intros yv. rewrite map_map. reflexivity.
Qed.

Lemma linspace_last (a b : float) (n : nat) :
  (2 <= n)%nat -> nth_error (Np.linspace a b n) (n - 1) = Some b.
Proof.
  intros Hn. unfold Np.linspace.
  destruct (Z.ltb_spec 1 (Z.of_nat n)) as [_|H1]; [|lia].
  set (y := map (fun v => (v + a)%float) _).
  assert (Hy : length y = n).
  { unfold y, Np.arange.
    repeat match goal with
           | |- context [if ?c then _ else _] => destruct c
           end; rewrite !List.length_map, List.length_seq; reflexivity. }
  unfold Np.set_last. destruct y as [|v y']; [simpl in Hy; lia|].
  rewrite nth_error_app2 by
    (rewrite List.removelast_firstn_len, List.length_firstn; simpl in *; lia).
  rewrite List.removelast_firstn_len, List.length_firstn.
  replace (n - 1 - Nat.min (Nat.pred (length (v :: y'))) (length (v :: y')))%nat
    with 0%nat by (simpl in *; lia).
  reflexivity.
Qed.

Lemma grid_side_clamped (pts : Z) : grid_side pts = grid_side (Z.max 1 pts).
Proof. unfold grid_side. rewrite (Z.max_r 1 (Z.max 1 pts)) by lia. reflexivity. Qed.

Lemma add_square_count (s : PointCloud3D.t) (x y size : float) (pts : Z) (color : vec3) :
  snd (add_square s x y size pts color) = length (square_points x y size pts).
Proof. unfold add_square. destruct (length (points s) =? 0)%nat; reflexivity. Qed.

(** ** The square root that sizes the grid

    [int(np.sqrt(p))] is computed in binary64.  For a target below 2^52 the
    conversion of [p] is exact and the rounded root cannot reach the next
    integer, so the truncation is the integer square root. *)

Section GridSide.

Local Open Scope Z_scope.

Lemma digits2_pos_log2 (p : positive) : Zpos (digits2_pos p) = Z.log2 (Zpos p) + 1.
Proof.
  induction p as [p IH|p IH|]; simpl digits2_pos.
  - rewrite Pos2Z.inj_succ, IH. change (Z.log2 (Z.pos p~1)) with (Z.pos (Pos.size p)).
    destruct p; simpl; lia.
  - rewrite Pos2Z.inj_succ, IH. change (Z.log2 (Z.pos p~0)) with (Z.pos (Pos.size p)).
    destruct p; simpl; lia.
  - reflexivity.
Qed.

Lemma digits2_pos_bounds (p : positive) (n : Z) :
  2 ^ (n - 1) <= Zpos p < 2 ^ n -> 1 <= n -> Zpos (digits2_pos p) = n.
Proof.
  intros Hb Hn. rewrite digits2_pos_log2.
  rewrite (Z.log2_unique (Zpos p) (n - 1)); [lia|lia|].
  replace (Z.succ (n - 1)) with n by lia. exact Hb.
Qed.

Lemma digits2_pos_range (p : positive) :
  2 ^ (Zpos (digits2_pos p) - 1) <= Zpos p < 2 ^ Zpos (digits2_pos p).
Proof.
  rewrite digits2_pos_log2. replace (Z.log2 (Z.pos p) + 1 - 1) with (Z.log2 (Z.pos p)) by lia.
  pose proof (Z.log2_spec (Zpos p) ltac:(lia)) as H. unfold Z.succ in H. exact H.
Qed.

Lemma iter_xO_mul (p k : positive) : Zpos (Pos.iter xO p k) = Zpos p * 2 ^ Zpos k.
Proof.
  revert p. induction k as [|k IH] using Pos.peano_ind; intros p.
  - simpl. lia.
  - rewrite Pos.iter_succ. rewrite Pos2Z.inj_xO, IH, Pos2Z.inj_succ, Z.pow_succ_r by lia. lia.
Qed.

Lemma shr_fexp_canonical (m e : Z) (l : location) :
  fexp prec emax (Zdigits2 m + e) = e ->
  shr_fexp prec emax m e l = (shr_record_of_loc m l, e).
Proof. intros H. unfold shr_fexp. rewrite H, Z.sub_diag. reflexivity. Qed.

Lemma loc_of_shr_record_of_loc (m : Z) (l : location) :
  loc_of_shr_record (shr_record_of_loc m l) = l /\ shr_m (shr_record_of_loc m l) = m.
Proof. destruct l as [|[| |]]; split; reflexivity. Qed.

Lemma binary_round_aux_canonical (m m' : positive) (e : Z) (l : location) :
  Zpos (digits2_pos m) = 53 -> -1074 <= e <= 971 ->
  round_nearest_even (Zpos m) l = Zpos m' ->
  Zpos (digits2_pos m') = 53 ->
  binary_round_aux prec emax false (Zpos m) e l = S754_finite false m' e.
Proof.
  intros Hd He Hr Hd'. unfold binary_round_aux.
  assert (Hf : fexp prec emax (53 + e) = e) by (unfold fexp, SpecFloat.emin, prec, emax; lia).
  rewrite shr_fexp_canonical by (simpl Zdigits2; rewrite Hd; exact Hf).
  destruct (loc_of_shr_record_of_loc (Zpos m) l) as [-> ->].
  rewrite Hr.
  rewrite shr_fexp_canonical by (simpl Zdigits2; rewrite Hd'; exact Hf).
  simpl.
  match goal with
  | |- context [Z.leb e ?b] =>
      destruct (Z.leb_spec e b) as [_|H];
      [reflexivity|unfold emax, prec in H; lia]
  end.
Qed.

Lemma float_of_pos_spec (p : positive) :
  Zpos (digits2_pos p) <= 52 ->
  let d := Zpos (digits2_pos p) in
  binary_normalize prec emax (Zpos p) 0 false
  = S754_finite false (Pos.iter xO p (Z.to_pos (53 - d))) (d - 53).
Proof.
  intros Hd d. fold d in Hd.
  assert (Hd1 : 1 <= d) by (unfold d; lia).
  unfold binary_normalize, binary_round.
  rewrite Z.add_0_r. fold d.
  assert (Hf : fexp prec emax d = d - 53) by (unfold fexp, SpecFloat.emin, prec, emax; lia).
  rewrite Hf. unfold shl_align. rewrite Z.sub_0_r.
  destruct (d - 53) as [|k|k] eqn:Hk; try lia.
  replace (Z.to_pos (53 - d)) with k by lia.
  assert (Hm : Zpos (Pos.iter xO p k) = Zpos p * 2 ^ (53 - d))
    by (rewrite iter_xO_mul; f_equal; f_equal; lia).
  assert (Hdig : Zpos (digits2_pos (Pos.iter xO p k)) = 53).
  { apply digits2_pos_bounds; [|lia]. rewrite Hm.
    pose proof (digits2_pos_range p) as Hr. fold d in Hr.
    replace (2 ^ (53 - 1)) with (2 ^ (d - 1) * 2 ^ (53 - d))
      by (rewrite <- Z.pow_add_r by lia; f_equal; lia).
    replace (2 ^ 53) with (2 ^ d * 2 ^ (53 - d))
      by (rewrite <- Z.pow_add_r by lia; f_equal; lia).
    assert (0 < 2 ^ (53 - d)) by (apply Z.pow_pos_nonneg; lia). nia. }
  apply binary_round_aux_canonical; [exact Hdig|lia|reflexivity|exact Hdig].
Qed.

Lemma sqrt_lt_square (a b : Z) : 0 <= b -> a * a < b * b -> a < b.
Proof.
  intros Hb H. destruct (Z.lt_ge_cases a b) as [|Hge]; [assumption|].
  assert (b * b <= a * a) by (apply Z.mul_le_mono_nonneg; lia). lia.
Qed.

Lemma sqrt_scaled_bounds (p t K q r : Z) :
  0 < K -> 0 <= t -> t * t <= p < (t + 1) * (t + 1) ->
  p * (K * K) = q * q + r -> 0 <= q -> 0 <= r <= 2 * q ->
  2 * (t + 1) <= K ->
  t * K <= q /\ q + 1 < (t + 1) * K.
Proof.
  intros HK Ht Hp Hq Hq0 Hr HtK.
  assert (HKK : 0 < K * K) by (apply Z.mul_pos_pos; lia).
  split.
  - assert (t * K < q + 1); [|lia]. apply sqrt_lt_square; [lia|].
    assert (t * t * (K * K) <= p * (K * K))
      by (apply Z.mul_le_mono_nonneg_r; lia).
    replace (t * K * (t * K)) with (t * t * (K * K)) by ring.
    replace ((q + 1) * (q + 1)) with (q * q + 2 * q + 1) by ring. lia.
  - set (T := (t + 1) * K).
    assert (HT : 0 < T) by (unfold T; apply Z.mul_pos_pos; lia).
    assert (q < T - 1); [|lia]. apply sqrt_lt_square; [lia|].
    assert (H1 : p * (K * K) <= ((t + 1) * (t + 1) - 1) * (K * K))
      by (apply Z.mul_le_mono_nonneg_r; lia).
    assert (H2 : 2 * (t + 1) * K <= K * K)
      by (apply Z.mul_le_mono_nonneg_r; lia).
    replace (((t + 1) * (t + 1) - 1) * (K * K)) with (T * T - K * K) in H1
      by (unfold T; ring).
    replace (2 * (t + 1) * K) with (2 * T) in H2 by (unfold T; ring).
    replace ((T - 1) * (T - 1)) with (T * T - 2 * T + 1) by ring. lia.
Qed.

Lemma SFsqrt_of_pos (p : positive) :
  let d := Zpos (digits2_pos p) in
  let k := 53 - (d + 1) / 2 in
  d <= 52 ->
  exists qr : positive,
    SFsqrt prec emax (S754_finite false (Pos.iter xO p (Z.to_pos (53 - d))) (d - 53))
    = S754_finite false qr (- k) /\
    0 < k /\
    Zpos qr / 2 ^ k = Z.sqrt (Zpos p).
Proof.
  intros d k Hd.
  assert (Hd1 : 1 <= d) by (unfold d; lia).
  pose proof (digits2_pos_range p) as Hp. fold d in Hp.
  clearbody d.
  set (h := (d + 1) / 2) in *.
  assert (Hh : 2 * h = d \/ 2 * h = d + 1).
  { pose proof (Z.div_mod (d + 1) 2 ltac:(lia)).
    pose proof (Z.mod_pos_bound (d + 1) 2 ltac:(lia)). fold h in H. lia. }
  assert (Hk : 27 <= k <= 52) by (unfold k; lia).
  set (m1 := Pos.iter xO p (Z.to_pos (53 - d))).
  assert (Hm1 : Zpos m1 = Zpos p * 2 ^ (53 - d)).
  { unfold m1. rewrite iter_xO_mul. f_equal. f_equal. lia. }
  assert (Hdig1 : Zpos (digits2_pos m1) = 53).
  { apply digits2_pos_bounds; [|lia]. rewrite Hm1.
    replace (2 ^ (53 - 1)) with (2 ^ (d - 1) * 2 ^ (53 - d))
      by (rewrite <- Z.pow_add_r by lia; f_equal; lia).
    replace (2 ^ 53) with (2 ^ d * 2 ^ (53 - d))
      by (rewrite <- Z.pow_add_r by lia; f_equal; lia).
    assert (0 < 2 ^ (53 - d)) by (apply Z.pow_pos_nonneg; lia).
    split; [apply Z.mul_le_mono_nonneg_r; lia|apply Z.mul_lt_mono_pos_r; lia]. }
  unfold SFsqrt, SFsqrt_core_binary. simpl Zdigits2. rewrite Hdig1.
  rewrite !Z.div2_div.
  replace (53 + (d - 53) + 1) with (d + 1) by lia. fold h.
  assert (He' : Z.min (fexp prec emax h) ((d - 53) / 2) = - k).
  { replace (d - 53) with (d + 1 + (- 27) * 2) by lia.
    rewrite Z.div_add by lia. fold h.
    unfold fexp, SpecFloat.emin, prec, emax, k. lia. }
  rewrite He'.
  remember (d - 53 - 2 * - k) as s eqn:Hs0.
  assert (Hs : s = d + 53 - 2 * h) by (unfold k in Hs0; lia).
  assert (Hspos : 0 < s) by lia.
  assert (Hmatch : match s with
                   | Z.pos _ => Z.shiftl (Zpos m1) s
                   | 0 => Zpos m1
                   | Z.neg _ => 0
                   end = Z.shiftl (Zpos m1) s)
    by (destruct s; [lia|reflexivity|lia]).
  rewrite Hmatch. clear Hmatch.
  set (K := 2 ^ k).
  assert (HK : 0 < K) by (apply Z.pow_pos_nonneg; lia).
  assert (HKK : K * K = 2 ^ (2 * k))
    by (unfold K; rewrite <- Z.pow_add_r by lia; f_equal; lia).
  assert (Hm' : Z.shiftl (Zpos m1) s = Zpos p * (K * K)).
  { rewrite Z.shiftl_mul_pow2 by lia. rewrite Hm1, HKK.
    rewrite <- Z.mul_assoc, <- Z.pow_add_r by lia. f_equal. f_equal. unfold k. lia. }
  rewrite Hm'. clear Hm' Hm1 Hs0.
  set (t := Z.sqrt (Zpos p)).
  pose proof (Z.sqrt_spec (Zpos p) ltac:(lia)) as Ht. fold t in Ht. unfold Z.succ in Ht.
  assert (Ht0 : 0 <= t) by apply Z.sqrt_nonneg.
  set (P := 2 ^ h).
  assert (HP : 0 < P) by (apply Z.pow_pos_nonneg; lia).
  assert (HPP : 2 ^ d <= P * P).
  { unfold P. rewrite <- Z.pow_add_r by lia. apply Z.pow_le_mono_r; lia. }
  assert (HtP : t + 1 <= P).
  { assert (t < P); [|lia]. apply sqrt_lt_square; lia. }
  assert (HPK : 2 * P <= K).
  { unfold P, K. change 2 with (2 ^ 1) at 1. rewrite <- Z.pow_add_r by lia.
    apply Z.pow_le_mono_r; unfold k; lia. }
  assert (HPK53 : P * K = 2 ^ 53).
  { unfold P, K. rewrite <- Z.pow_add_r by lia. f_equal. unfold k. lia. }
  assert (Hlow : 2 ^ 104 <= Zpos p * (K * K)).
  { rewrite HKK.
    assert (2 ^ 104 <= 2 ^ (d - 1) * 2 ^ (2 * k)).
    { rewrite <- Z.pow_add_r by lia. apply Z.pow_le_mono_r; unfold k; lia. }
    assert (0 < 2 ^ (2 * k)) by (apply Z.pow_pos_nonneg; lia).
    assert (2 ^ (d - 1) * 2 ^ (2 * k) <= Zpos p * 2 ^ (2 * k))
      by (apply Z.mul_le_mono_nonneg_r; lia).
    lia. }
  pose proof (Z.sqrtrem_spec (Zpos p * (K * K)) ltac:(lia)) as Hqr.
  destruct (Z.sqrtrem (Zpos p * (K * K))) as [q r]. destruct Hqr as [Hq Hr].
  assert (Hq0 : 0 <= q) by lia.
  destruct (sqrt_scaled_bounds (Zpos p) t K q r HK Ht0 Ht Hq Hq0 Hr ltac:(lia))
    as [HtK HqT].
  assert (HT53 : (t + 1) * K <= 2 ^ 53).
  { rewrite <- HPK53. apply Z.mul_le_mono_nonneg_r; lia. }
  assert (Hqlow : 2 ^ 52 <= q).
  { assert (2 ^ 52 < q + 1); [|lia]. apply sqrt_lt_square; [lia|].
    replace ((q + 1) * (q + 1)) with (q * q + 2 * q + 1) by ring.
    change (2 ^ 52 * 2 ^ 52) with (2 ^ 104). lia. }
  clear Hlow HPP HtP HPK HPK53 HP Hp.
  set (l := if r =? 0 then loc_Exact else loc_Inexact (if r <=? q then Lt else Gt)).
  assert (Hround : round_nearest_even q l = q \/ round_nearest_even q l = q + 1).
  { unfold l. destruct (r =? 0); [left; reflexivity|].
    destruct (r <=? q); [left|right]; reflexivity. }
  clearbody l.
  destruct q as [|qp|qp]; try lia.
  assert (Hex : exists qr : positive, round_nearest_even (Zpos qp) l = Zpos qr).
  { destruct Hround as [-> | ->]; [exists qp; reflexivity|exists (qp + 1)%positive; lia]. }
  destruct Hex as [qr Hqr]. exists qr.
  assert (Hqrb : Zpos qp <= Zpos qr <= Zpos qp + 1) by lia.
  split; [|split; [lia|]].
  - apply binary_round_aux_canonical; [|lia|exact Hqr|].
    + apply digits2_pos_bounds; lia.
    + apply digits2_pos_bounds; lia.
  - symmetry. apply (Z.div_unique_pos (Zpos qr) K t (Zpos qr - t * K)); lia.
Qed.

Lemma digits2_pos_le (p : positive) (n : Z) :
  Zpos p < 2 ^ n -> 0 <= n -> Zpos (digits2_pos p) <= n.
Proof.
  intros Hp Hn. pose proof (digits2_pos_range p) as [Hlo _].
  destruct (Z.le_gt_cases (Zpos (digits2_pos p)) n) as [|Hgt]; [assumption|].
  assert (2 ^ n <= 2 ^ (Zpos (digits2_pos p) - 1)) by (apply Z.pow_le_mono_r; lia).
  lia.
Qed.

Lemma int_sqrt_int (p : Z) :
  1 <= p < 2 ^ 52 -> Py.int_of_float (Np.sqrt_int p) = Some (Z.sqrt p).
Proof.
  intros Hp. destruct p as [|p|p]; try lia.
  assert (Hd : Zpos (digits2_pos p) <= 52) by (apply digits2_pos_le; lia).
  unfold Py.int_of_float, Np.sqrt_int, Py.float_of_int.
  rewrite sqrt_spec, (float_of_pos_spec p Hd).
  rewrite Prim2SF_SF2Prim.
  - destruct (SFsqrt_of_pos p Hd) as (qr & Hsq & Hk & Hdiv).
    unfold SF64sqrt. rewrite Hsq.
    destruct (Z.leb_spec 0 (- (53 - (Zpos (digits2_pos p) + 1) / 2))) as [H|_]; [lia|].
    rewrite Z.opp_involutive, Z.shiftr_div_pow2 by lia. rewrite Hdiv. reflexivity.
  - pose proof (float_of_pos_spec p Hd) as Hn. simpl in Hn.
    unfold valid_binary, bounded, canonical_mantissa.
    assert (Hdig : Zpos (digits2_pos (Pos.iter xO p (Z.to_pos (53 - Zpos (digits2_pos p))))) = 53).
    { apply digits2_pos_bounds; [|lia]. rewrite iter_xO_mul.
      pose proof (digits2_pos_range p) as Hr.
      set (d := Zpos (digits2_pos p)) in *.
      assert (1 <= d) by (unfold d; lia). clearbody d.
      replace (Z.pos (Z.to_pos (53 - d))) with (53 - d) by lia.
      replace (2 ^ (53 - 1)) with (2 ^ (d - 1) * 2 ^ (53 - d))
        by (rewrite <- Z.pow_add_r by lia; f_equal; lia).
      replace (2 ^ 53) with (2 ^ d * 2 ^ (53 - d))
        by (rewrite <- Z.pow_add_r by lia; f_equal; lia).
      assert (0 < 2 ^ (53 - d)) by (apply Z.pow_pos_nonneg; lia).
      split; [apply Z.mul_le_mono_nonneg_r; lia|apply Z.mul_lt_mono_pos_r; lia]. }
    rewrite Hdig. unfold fexp, SpecFloat.emin, prec, emax.
    apply andb_true_intro. split; [apply Z.eqb_eq|apply Z.leb_le]; lia.
Qed.

Lemma grid_side_isqrt (pts : Z) :
  pts < 2 ^ 52 -> grid_side pts = Z.sqrt (Z.max 1 pts).
Proof.
  intros Hb. unfold grid_side.
  rewrite int_sqrt_int by lia.
  assert (1 <= Z.sqrt (Z.max 1 pts)).
  { change 1 with (Z.sqrt 1) at 1. apply Z.sqrt_le_mono. lia. }
  destruct (Z.ltb_spec (Z.sqrt (Z.max 1 pts)) 1); [lia|reflexivity].
Qed.

End GridSide.

(** ** Channels whose conversion is defined *)

Lemma shiftr_below (m k q : Z) :
  (0 <= m)%Z -> (0 <= k)%Z -> (m < 2 ^ k * q)%Z -> (0 <= Z.shiftr m k < q)%Z.
Proof.
  intros Hm Hk Hlt. rewrite Z.shiftr_div_pow2 by exact Hk.
  assert (Hp : (0 < 2 ^ k)%Z) by (apply Z.pow_pos_nonneg; [reflexivity|exact Hk]).
  split; [apply Z.div_pos; assumption|].
  apply Z.div_lt_upper_bound; assumption.
Qed.

Lemma mantissa_53 (s : bool) (m : positive) (e : Z) :
  valid_binary (S754_finite s m e) = true -> (Z.pos m < 2 ^ 53)%Z.
Proof.
  unfold valid_binary, bounded, canonical_mantissa, fexp. intros Hv.
  apply andb_true_iff in Hv as [Hc _]. apply Z.eqb_eq in Hc.
  pose proof (digits2_pos_range m) as [_ Hd].
  eapply Z.lt_le_trans; [exact Hd|].
  apply Z.pow_le_mono_r; [reflexivity|]. unfold prec in Hc. clear Hd. lia.
Qed.

(** A float in [0, 256) truncates to a byte. *)
Lemma int_of_float_byte (v : float) :
  (0 <=? v)%float = true -> (v <? 256)%float = true ->
  exists z, Py.int_of_float v = Some z /\ (0 <= z < 256)%Z.
Proof.
  rewrite leb_spec, ltb_spec. unfold Py.int_of_float.
  pose proof (Prim2SF_valid v) as Hv.
  pose (P := 4503599627370496%positive).
  assert (HP : (Z.pos P = 2 ^ 44 * 256)%Z) by reflexivity.
  change (Prim2SF 0) with (S754_zero false).
  change (Prim2SF 256) with (S754_finite false P (-44)).
  clearbody P.
  destruct (Prim2SF v) as [s|s| |s m e]; unfold SFleb, SFltb, SFcompare.
  - intros _ _. exists 0%Z. split; [reflexivity|lia].
  - destruct s; discriminate.
  - discriminate.
  - destruct s; [discriminate|]. intros _ Hlt.
    apply mantissa_53 in Hv.
    destruct (Z.compare_spec e (-44)) as [He|He|He]; [| |discriminate].
    + pose proof (Pos.compare_spec m P) as Hs. unfold Pos.compare in Hs.
      destruct Hs as [Hp|Hp|Hp]; try discriminate.
      subst e. exists (Z.shiftr (Z.pos m) 44). split; [reflexivity|].
      apply shiftr_below; [apply Pos2Z.is_nonneg|discriminate|].
      rewrite <- HP. apply Pos2Z.pos_lt_pos. exact Hp.
    + clear Hlt HP. destruct (Z.leb_spec 0 e) as [He'|He']; [exfalso; clear Hv; lia|].
      exists (Z.shiftr (Z.pos m) (- e)). split; [reflexivity|].
      apply shiftr_below; [apply Pos2Z.is_nonneg|clear Hv; lia|].
      eapply Z.lt_le_trans; [exact Hv|].
      change (2 ^ 53)%Z with (2 ^ 45 * 256)%Z.
      apply Z.mul_le_mono_nonneg_r; [discriminate|].
      apply Z.pow_le_mono_r; [reflexivity|]. clear Hv. lia.
Qed.

(** The conversion of a channel [c] to uint8 is defined, in the sense of
    [channel_defined], whenever the float [c * 255] lies in [0, 256). *)
Lemma channel_defined_range (c : float) :
  (0 <=? c * 255)%float = true -> (c * 255 <? 256)%float = true ->
  channel_defined c = true.
Proof.
  intros H0 H1. unfold channel_defined.
  destruct (int_of_float_byte _ H0 H1) as (z & -> & Hz).
  apply andb_true_iff. split; [apply Z.leb_le|apply Z.ltb_lt]; apply Hz.
Qed.

(** X1: for every target below 2^52 the number of points [add_square]
    appends, which is also the count it returns, is the largest perfect
    square not above the target clamped to at least 1. *)
Theorem square_count_largest_perfect_square
    (s : PointCloud3D.t) (x y size : float) (pts : Z) (color : vec3) :
  (pts < 2 ^ 52)%Z ->
  let r := Z.sqrt (Z.max 1 pts) in
  Z.of_nat (snd (add_square s x y size pts color)) = (r * r)%Z /\
  (1 <= r)%Z /\
  (r * r <= Z.max 1 pts < (r + 1) * (r + 1))%Z.
Proof.
  intros Hb r. rewrite add_square_count, square_points_length.
  rewrite (grid_side_isqrt pts Hb). fold r.
  pose proof (Z.sqrt_spec (Z.max 1 pts) ltac:(lia)) as Hr. fold r in Hr.
  unfold Z.succ in Hr.
  assert (H1 : (1 <= r)%Z).
  { unfold r. change 1%Z with (Z.sqrt 1) at 1. apply Z.sqrt_le_mono. lia. }
  split; [|split; [exact H1|exact Hr]].
  rewrite Nat2Z.inj_mul, Z2Nat.id by lia. reflexivity.
Qed.

Lemma square_count_largest_perfect_square_witness :
  let r := Z.sqrt (Z.max 1 200) in
  Z.of_nat (snd (add_square PointCloud3D.init 0 0 1 200 default_color)) = (r * r)%Z /\
  (1 <= r)%Z /\
  (r * r <= Z.max 1 200 < (r + 1) * (r + 1))%Z.
Proof.
  apply (square_count_largest_perfect_square PointCloud3D.init 0 0 1 200 default_color).
  reflexivity.
Defined.

(** X2: a target of 200 points gives a 14 x 14 grid of 196 points, all at
    z = 0, listed row by row: every sample of the y axis paired with the 14
    samples of the x axis.  The samples of each axis are [linspace]'s over
    [-size/2, size/2] shifted by the centre, the last one being exactly
    size/2 + x (resp. size/2 + y); for a unit square the first point is
    (-0.5 + x, -0.5 + y, 0) and the last (0.5 + x, 0.5 + y, 0). *)
Theorem default_square_is_grid (x y size : float) :
  let xs := map (fun v => (v + x)%float) (Np.linspace (- size / 2) (size / 2) 14) in
  let ys := map (fun v => (v + y)%float) (Np.linspace (- size / 2) (size / 2) 14) in
  square_points x y size 200
  = concat (map (fun yv => map (fun xv => (xv, yv, 0%float)) xs) ys) /\
  length (square_points x y size 200) = 196%nat /\
  length xs = 14%nat /\ length ys = 14%nat /\
  nth_error xs 13 = Some (size / 2 + x)%float /\
  nth_error ys 13 = Some (size / 2 + y)%float /\
  nth_error (square_points x y 1 200) 0 = Some ((-0.5 + x)%float, (-0.5 + y)%float, 0%float) /\
  nth_error (square_points x y 1 200) 195 = Some ((0.5 + x)%float, (0.5 + y)%float, 0%float).
Proof.
  intros xs ys.
  assert (Hn : Z.to_nat (grid_side 200) = 14%nat) by (vm_compute; reflexivity).
  split.
  { pose proof (square_points_grid x y size 200) as Hg. simpl in Hg.
    rewrite Hn in Hg. exact Hg. }
  split; [rewrite square_points_length, Hn; reflexivity|].
  split; [unfold xs; rewrite List.length_map; apply linspace_length|].
  split; [unfold ys; rewrite List.length_map; apply linspace_length|].
  split.
  { unfold xs. rewrite nth_error_map.
    rewrite (linspace_last (- size / 2) (size / 2) 14 ltac:(lia)
             : nth_error (Np.linspace (- size / 2) (size / 2) 14) 13 = Some (size / 2)%float).
    reflexivity. }
  split.
  { unfold ys. rewrite nth_error_map.
    rewrite (linspace_last (- size / 2) (size / 2) 14 ltac:(lia)
             : nth_error (Np.linspace (- size / 2) (size / 2) 14) 13 = Some (size / 2)%float).
    reflexivity. }
  split; vm_compute; reflexivity.
Qed.

(** ** Further invariants of the store *)

Lemma square_points_flat (x y size : float) (pts : Z) :
  Forall (fun p : vec3 => snd p = 0%float) (square_points x y size pts).
Proof.
  unfold square_points. destruct (Np.meshgrid _ _) as [xx yy].
  apply List.Forall_map. apply List.Forall_forall. intros [a b] _. reflexivity.
Qed.

Lemma add_square_flat (s : PointCloud3D.t) (a : square_args) :
  flat s -> flat (add_square_with s a).
Proof.
  intros Hf. unfold flat, add_square_with, add_square.
  destruct (length (points s) =? 0)%nat; simpl.
  - apply square_points_flat.
  - apply List.Forall_app. split; [exact Hf|apply square_points_flat].
Qed.

Lemma undo_flat (s : PointCloud3D.t) : flat s -> flat (fst (undo s)).
Proof.
  intros Hf. unfold flat, undo.
  destruct (Py.pop (undo_stack s)) as [[rest [start count]]|]; [|exact Hf].
  destruct (start =? 0)%nat; simpl; [constructor|].
  apply Forall_take, Hf.
Qed.

Lemma clear_flat (s : PointCloud3D.t) : flat s -> flat (fst (clear s)).
Proof.
  intros Hf. unfold flat, clear.
  destruct (length (points s) * 3 =? 0)%nat; simpl; [exact Hf|constructor].
Qed.

(** X3: every point of every reachable store has z = 0: squares are
    generated in the plane and [undo] and [clear] only remove rows. *)
Theorem reachable_points_flat (s : PointCloud3D.t) :
  reachable s ->
  forall k px py pz, nth_error (points s) k = Some (px, py, pz) -> pz = 0%float.
Proof.
  intros Hr.
  assert (Hf : flat s).
  { induction Hr; [constructor|apply add_square_flat|apply undo_flat|apply clear_flat];
      assumption. }
  intros k px py pz Hk. unfold flat in Hf. rewrite List.Forall_forall in Hf.
  apply (Hf (px, py, pz)). eapply nth_error_In. exact Hk.
Qed.

Lemma reachable_points_flat_witness :
  let s := appends PointCloud3D.init
             [mk_args 1 2 1 200 default_color; mk_args 3 1 2 9 default_color] in
  reachable s /\
  forall k px py pz, nth_error (points s) k = Some (px, py, pz) -> pz = 0%float.
Proof.
  assert (Hr : reachable (appends PointCloud3D.init
                            [mk_args 1 2 1 200 default_color;
                             mk_args 3 1 2 9 default_color]))
    by apply reach_add, reach_add, reach_init.
  split; [exact Hr|].
  exact (reachable_points_flat _ Hr).
Defined.

Lemma grounded_init : grounded_stack PointCloud3D.init.
Proof. split; reflexivity. Qed.

Lemma grounded_add (s : PointCloud3D.t) (a : square_args) :
  aligned s -> grounded_stack s -> grounded_stack (add_square_with s a).
Proof.
  intros Hal Hg. unfold add_square_with.
  rewrite (add_square_spec _ _ _ _ _ _ Hal). unfold grounded_stack in *. simpl.
  destruct (undo_stack s) as [|[st c] l]; simpl.
  - destruct Hg as [-> _]. reflexivity.
  - exact Hg.
Qed.

Lemma grounded_clear (s : PointCloud3D.t) :
  grounded_stack s -> grounded_stack (fst (clear s)).
Proof.
  intros Hg. unfold clear.
  destruct (length (points s) * 3 =? 0)%nat; [exact Hg|].
  unfold grounded_stack in *. simpl.
  destruct (undo_stack s) as [|[st c] l]; simpl; [reflexivity|exact Hg].
Qed.

Lemma grounded_undo (s : PointCloud3D.t) :
  grounded_stack s -> grounded_stack (fst (undo s)).
Proof.
  intros Hg. unfold undo.
  destruct (Py.pop (undo_stack s)) as [[rest [start count]]|] eqn:Hp; [|exact Hg].
  apply pop_some_snoc in Hp. unfold grounded_stack in *. rewrite Hp in Hg.
  destruct rest as [|[st c] rest].
  - simpl in Hg. subst start. simpl. split; reflexivity.
  - simpl in Hg. destruct (start =? 0)%nat; simpl; exact Hg.
Qed.

Lemma reachable_grounded (s : PointCloud3D.t) : reachable s -> grounded_stack s.
Proof.
  induction 1 as [|s a Hr IH|s Hr IH|s Hr IH].
  - apply grounded_init.
  - apply grounded_add; [apply reachable_aligned, Hr|exact IH].
  - apply grounded_undo, IH.
  - apply grounded_clear, IH.
Qed.

Lemma set_buffers_set_buffers (s : PointCloud3D.t) p c st p' c' st' :
  set_buffers (set_buffers s p c st) p' c' st' = set_buffers s p' c' st'.
Proof. reflexivity. Qed.

Lemma undo_n_whole_stack (n : nat) (s : PointCloud3D.t) :
  grounded_stack s -> length (undo_stack s) = n ->
  undo_n n s = (set_buffers s [] [] [], true).
Proof.
  revert s. induction n as [|n IH]; intros s Hg Hlen.
  - simpl. unfold grounded_stack in Hg.
    destruct s as [p c st h1 h2 h3]. simpl in *.
    destruct st; [|discriminate]. destruct Hg as [-> ->]. reflexivity.
  - simpl. pose proof (grounded_undo s Hg) as Hg1. unfold undo in *.
    destruct (Py.pop (undo_stack s)) as [[rest [start count]]|] eqn:Hp.
    + pose proof (pop_some_snoc _ _ _ Hp) as Hst.
      assert (Hrest : length rest = n).
      { rewrite Hst, List.length_app in Hlen. simpl in Hlen. lia. }
      destruct (start =? 0)%nat; simpl in Hg1 |- *;
        rewrite (IH _ Hg1 Hrest); reflexivity.
    + apply pop_nil_inv in Hp. rewrite Hp in Hlen. discriminate.
Qed.

(** X4: in every reachable store, as many undos as there are batches on
    the stack all succeed and leave the store empty, with an empty stack and
    the settings untouched; one more [undo()] returns [False] and changes
    nothing. *)
Theorem undo_whole_history_empties (s : PointCloud3D.t) :
  reachable s ->
  undo_n (length (undo_stack s)) s = (set_buffers s [] [] [], true) /\
  undo (set_buffers s [] [] []) = (set_buffers s [] [] [], false).
Proof.
  intros Hr. split; [|reflexivity].
  apply undo_n_whole_stack; [apply reachable_grounded, Hr|reflexivity].
Qed.

Lemma undo_whole_history_empties_witness :
  let s := fst (clear (appends PointCloud3D.init
                         [mk_args 1 2 1 200 default_color; mk_args 3 1 2 9 default_color])) in
  undo_n (length (undo_stack s)) s = (set_buffers s [] [] [], true) /\
  undo (set_buffers s [] [] []) = (set_buffers s [] [] [], false).
Proof.
  apply (undo_whole_history_empties
           (fst (clear (appends PointCloud3D.init
                          [mk_args 1 2 1 200 default_color; mk_args 3 1 2 9 default_color])))).
  apply reach_clear, reach_add, reach_add, reach_init.
Defined.

(** ** Exported colours *)

Lemma astype_uint8_range (f : float) : (0 <= Np.astype_uint8 f < 256)%Z.
Proof.
  unfold Np.astype_uint8. destruct (Py.int_of_float f) as [z|]; [|lia].
  destruct ((- 2 ^ 31 <=? z) && (z <? 2 ^ 31))%Z; [|lia].
  apply Z.mod_pos_bound. lia.
Qed.

Lemma build_colors_byte (s : PointCloud3D.t) pts cols :
  build_3d_layers s = Some (pts, cols) -> Forall byte_channels cols.
Proof.
  unfold build_3d_layers. destruct (length (points s) * 3 =? 0)%nat; [discriminate|].
  intros [= _ <-]. apply List.Forall_concat. apply List.Forall_map.
  apply List.Forall_forall. intros _ _. apply List.Forall_map.
  apply List.Forall_forall. intros [[r g] b] _. simpl.
  repeat split; apply astype_uint8_range.
Qed.

Lemma pack_B_byte (n : Z) :
  (0 <= n < 256)%Z -> exists b, pack_B n = Some [b].
Proof.
  intros Hn. unfold pack_B. destruct (Z.leb_spec 0 n) as [_|]; [|lia].
  destruct (Byte.of_N (Z.to_N n)) as [b|] eqn:Hb; [exists b; reflexivity|].
  apply Byte.of_N_None_iff in Hb. lia.
Qed.

(** X5: every colour row that [build_3d_layers] returns has its three
    channels between 0 and 255, so that packing them as unsigned bytes
    succeeds and gives three bytes: the PLY export never fails on a colour. *)
Theorem export_channels_fit_bytes (s : PointCloud3D.t) pts cols (c : rgb8) :
  build_3d_layers s = Some (pts, cols) -> In c cols ->
  byte_channels c /\ exists bs, pack_BBB c = Some bs /\ length bs = 3%nat.
Proof.
  intros Hb Hin. pose proof (build_colors_byte s pts cols Hb) as Hall.
  rewrite List.Forall_forall in Hall. specialize (Hall c Hin).
  split; [exact Hall|]. destruct c as [[r g] b]. destruct Hall as (Hr & Hg & Hbl).
  destruct (pack_B_byte r Hr) as [br Hbr], (pack_B_byte g Hg) as [bg Hbg],
    (pack_B_byte b Hbl) as [bb Hbb].
  unfold pack_BBB. rewrite Hbr, Hbg, Hbb. eexists. split; reflexivity.
Qed.

Lemma export_channels_fit_bytes_witness :
  byte_channels (63, 127, 191)%Z /\
  exists bs, pack_BBB (63, 127, 191)%Z = Some bs /\ length bs = 3%nat.
Proof.
  refine (export_channels_fit_bytes (one_point (0.25, 0.5, 0.75)%float) _ _
            (63, 127, 191)%Z _ _).
  - vm_compute. reflexivity.
  - left. reflexivity.
Defined.

Lemma shiftr_small (a n : Z) : (0 <= a < 2 ^ n)%Z -> (0 <= n)%Z -> Z.shiftr a n = 0%Z.
Proof.
  intros Ha Hn. rewrite Z.shiftr_div_pow2 by lia. apply Z.div_small. lia.
Qed.

Lemma land_255 (a : Z) : (0 <= a < 256)%Z -> Z.land a 255 = a.
Proof.
  intros Ha. change 255%Z with (Z.ones 8). rewrite Z.land_ones by lia.
  apply Z.mod_small. change (2 ^ 8)%Z with 256%Z. lia.
Qed.

Lemma land_255_shiftl (a n : Z) : (8 <= n)%Z -> Z.land (Z.shiftl a n) 255 = 0%Z.
Proof.
  intros Hn. change 255%Z with (Z.ones 8). rewrite Z.land_ones by lia.
  rewrite Z.shiftl_mul_pow2 by lia.
  replace n with ((n - 8) + 8)%Z by lia. rewrite Z.pow_add_r by lia.
  rewrite Z.mul_assoc. apply Z.mod_mul. lia.
Qed.

Lemma pcd_rgb_decodes (c : rgb8) :
  byte_channels c ->
  (0 <= pcd_rgb c < 2 ^ 24)%Z /\ unpack_rgb (pcd_rgb c) = c.
Proof.
  destruct c as [[r g] b]. intros (Hr & Hg & Hb). unfold pcd_rgb, unpack_rgb.
  split.
  - assert (H0 : (0 <= Z.lor (Z.lor (Z.shiftl r 16) (Z.shiftl g 8)) b)%Z).
    { rewrite !Z.lor_nonneg, !Z.shiftl_nonneg. lia. }
    split; [exact H0|].
    pose proof (Z.add_lor_land (Z.lor (Z.shiftl r 16) (Z.shiftl g 8)) b) as H1.
    pose proof (Z.add_lor_land (Z.shiftl r 16) (Z.shiftl g 8)) as H2.
    assert (0 <= Z.land (Z.lor (Z.shiftl r 16) (Z.shiftl g 8)) b)%Z
      by (apply Z.land_nonneg; right; lia).
    assert (0 <= Z.land (Z.shiftl r 16) (Z.shiftl g 8))%Z
      by (apply Z.land_nonneg; right; apply Z.shiftl_nonneg; lia).
    rewrite !Z.shiftl_mul_pow2 in * by lia.
    change (2 ^ 16)%Z with 65536%Z in *. change (2 ^ 8)%Z with 256%Z in *.
    change (2 ^ 24)%Z with 16777216%Z. lia.
  - rewrite !Z.shiftr_lor, !Z.land_lor_distr_l.
    rewrite (Z.shiftr_shiftl_l r 16 16), (Z.shiftr_shiftl_r g 8 16),
      (Z.shiftr_shiftl_l r 16 8), (Z.shiftr_shiftl_l g 8 8) by lia.
    change (16 - 16)%Z with 0%Z. change (16 - 8)%Z with 8%Z. change (8 - 8)%Z with 0%Z.
    rewrite !Z.shiftl_0_r.
    rewrite (shiftr_small g 8), (shiftr_small b 16), (shiftr_small b 8)
      by (simpl; lia).
    rewrite !land_255_shiftl by lia.
    change (Z.land 0 255) with 0%Z.
    rewrite ?Z.lor_0_r, ?Z.lor_0_l.
    rewrite !land_255 by lia. reflexivity.
Qed.

Lemma pcd_record_packs pack_f pack_I (p : vec3) (c : rgb8) :
  byte_channels c ->
  pcd_record pack_f pack_I p c = (pack_fff pack_f p ++ pack_I (pcd_rgb c), None).
Proof.
  intros Hc. destruct (pcd_rgb_decodes c Hc) as [Hn _].
  destruct c as [[r g] b]. unfold pcd_record, pack_uint. unfold pcd_rgb in Hn |- *.
  assert (H24 : (2 ^ 24 = 16777216)%Z) by reflexivity.
  assert (H32 : (2 ^ 32 = 4294967296)%Z) by reflexivity.
  destruct (Z.leb_spec 0 (Z.lor (Z.lor (Z.shiftl r 16) (Z.shiftl g 8)) b)); [|lia].
  destruct (Z.ltb_spec (Z.lor (Z.lor (Z.shiftl r 16) (Z.shiftl g 8)) b) (2 ^ 32));
    [|lia].
  reflexivity.
Qed.

(** X6: for every colour row that [build_3d_layers] returns, the integer
    that [save_pcd] packs, (r << 16) | (g << 8) | b, fits 24 bits and
    decodes back to the same three channels by shifting and masking. *)
Theorem pcd_rgb_round_trip (s : PointCloud3D.t) pts cols (c : rgb8) :
  build_3d_layers s = Some (pts, cols) -> In c cols ->
  (forall pack_f pack_I p,
      pcd_record pack_f pack_I p c
      = (pack_fff pack_f p ++ pack_I (pcd_rgb c), None)) /\
  (0 <= pcd_rgb c < 2 ^ 24)%Z /\
  unpack_rgb (pcd_rgb c) = c.
Proof.
  intros Hb Hin.
  assert (Hc : byte_channels c).
  { pose proof (build_colors_byte s pts cols Hb) as Hall.
    rewrite List.Forall_forall in Hall. exact (Hall c Hin). }
  split.
  - intros pack_f pack_I p. apply pcd_record_packs. exact Hc.
  - apply pcd_rgb_decodes. exact Hc.
Qed.

Lemma pcd_rgb_round_trip_witness :
  (forall pack_f pack_I p,
      pcd_record pack_f pack_I p (63, 127, 191)%Z
      = (pack_fff pack_f p ++ pack_I (pcd_rgb (63, 127, 191)%Z), None)) /\
  (0 <= pcd_rgb (63, 127, 191)%Z < 2 ^ 24)%Z /\
  unpack_rgb (pcd_rgb (63, 127, 191)%Z) = (63, 127, 191)%Z.
Proof.
  refine (pcd_rgb_round_trip (one_point (0.25, 0.5, 0.75)%float) _ _
            (63, 127, 191)%Z _ _).
  - vm_compute. reflexivity.
  - left. reflexivity.
Defined.

(** ** Writing the export files *)












(** ** The controller over whole sessions *)

Lemma redraw_inv_init : redraw_inv PointCloudApp.init.
Proof.
  split.
  - right. split; reflexivity.
  - intros _. exists [], PointCloudApp.DrawIdle. reflexivity.
Qed.

Lemma redraw_inv_set_mouse (a : PointCloudApp.t) d p :
  redraw_inv a -> redraw_inv (PointCloudApp.set_mouse a d p).
Proof. intros H. exact H. Qed.

Lemma redraw_inv_add_cloud_quick (a : PointCloudApp.t) (x y : float) :
  redraw_inv a -> redraw_inv (PointCloudApp.add_cloud_quick a x y).
Proof.
  intros [Hp _]. unfold PointCloudApp.add_cloud_quick. simpl.
  destruct Hp as [[Hs Hq]|[Hs Hq]]; rewrite Hs; simpl.
  - split; [left; split; assumption|]. simpl. congruence.
  - split; [left; split; [reflexivity|]|simpl; discriminate].
    simpl. rewrite Hq. reflexivity.
Qed.

Lemma redraw_inv_update_view (a : PointCloudApp.t) (initial : bool) :
  pending_ok a -> redraw_inv (PointCloudApp.update_view a initial).
Proof.
  intros Hp. unfold PointCloudApp.update_view, PointCloudApp.view_of.
  destruct (length (points (PointCloudApp.pc a)) =? 0)%nat eqn:Ht.
  - split; [exact Hp|]. intros _.
    exists (PointCloudApp.canvas_draws a), PointCloudApp.DrawIdle.
    unfold PointCloudApp.view_of. simpl. rewrite Ht. reflexivity.
  - split; [exact Hp|]. intros _.
    exists (PointCloudApp.canvas_draws a),
      (if initial then PointCloudApp.Draw else PointCloudApp.DrawIdle).
    unfold PointCloudApp.view_of. simpl. rewrite Ht. reflexivity.
Qed.

Lemma redraw_inv_fire_timer (a a' : PointCloudApp.t) :
  redraw_inv a -> PointCloudApp.fire_timer a = Some a' -> redraw_inv a'.
Proof.
  intros [Hp _]. unfold PointCloudApp.fire_timer.
  destruct Hp as [[Hs Hq]|[Hs Hq]]; rewrite Hq; [|discriminate].
  intros [= <-]. unfold PointCloudApp._perform_scheduled_redraw.
  apply redraw_inv_update_view. right. split; reflexivity.
Qed.

Lemma undo_false_same (s : PointCloud3D.t) : snd (undo s) = false -> fst (undo s) = s.
Proof.
  unfold undo. destruct (Py.pop (undo_stack s)) as [[rest [start count]]|];
    [|reflexivity].
  destruct (start =? 0)%nat; discriminate.
Qed.

Lemma clear_false_same (s : PointCloud3D.t) : snd (clear s) = false -> fst (clear s) = s.
Proof.
  unfold clear. destruct (length (points s) * 3 =? 0)%nat; [reflexivity|discriminate].
Qed.

Lemma set_pc_same (a : PointCloudApp.t) : PointCloudApp.set_pc a (PointCloudApp.pc a) = a.
Proof. destruct a; reflexivity. Qed.

Lemma redraw_inv_undo (a : PointCloudApp.t) :
  redraw_inv a -> redraw_inv (PointCloudApp.undo a).
Proof.
  intros Hinv. unfold PointCloudApp.undo.
  pose proof (undo_false_same (PointCloudApp.pc a)) as Hf.
  destruct (undo (PointCloudApp.pc a)) as [p [|]]; simpl in Hf.
  - apply redraw_inv_update_view. exact (proj1 Hinv).
  - rewrite (Hf eq_refl), set_pc_same. exact Hinv.
Qed.

Lemma redraw_inv_clear (a : PointCloudApp.t) (answer : bool) :
  redraw_inv a -> redraw_inv (PointCloudApp.clear a answer).
Proof.
  intros Hinv. unfold PointCloudApp.clear. destruct answer; [|exact Hinv].
  pose proof (clear_false_same (PointCloudApp.pc a)) as Hf.
  destruct (clear (PointCloudApp.pc a)) as [p [|]]; simpl in Hf.
  - apply redraw_inv_update_view. exact (proj1 Hinv).
  - rewrite (Hf eq_refl), set_pc_same. exact Hinv.
Qed.

Lemma redraw_inv_update_settings (a : PointCloudApp.t) entries :
  redraw_inv a -> redraw_inv (fst (PointCloudApp.update_settings a entries)).
Proof.
  intros [Hp _]. unfold PointCloudApp.update_settings. simpl.
  apply redraw_inv_update_view. exact Hp.
Qed.

Lemma redraw_inv_mouse_press (a : PointCloudApp.t) ev :
  redraw_inv a -> redraw_inv (PointCloudApp.mouse_press a ev).
Proof.
  intros Hinv. unfold PointCloudApp.mouse_press.
  destruct (PointCloudApp.xydata ev) as [[x y]|]; [|exact Hinv].
  destruct (PointCloudApp.button ev =? 1)%Z; [|exact Hinv].
  apply redraw_inv_add_cloud_quick, redraw_inv_set_mouse, Hinv.
Qed.

Lemma redraw_inv_mouse_move pow2 (a : PointCloudApp.t) ev :
  redraw_inv a -> redraw_inv (PointCloudApp.mouse_move pow2 a ev).
Proof.
  intros Hinv. unfold PointCloudApp.mouse_move.
  destruct (negb (PointCloudApp.mouse_down a)); [exact Hinv|].
  destruct (PointCloudApp.xydata ev) as [[x y]|]; [|exact Hinv].
  destruct (PointCloudApp.last_pos a) as [[lx ly]|]; [|exact Hinv].
  destruct (0.0005 <? _)%float; [|exact Hinv].
  apply redraw_inv_add_cloud_quick, redraw_inv_set_mouse, Hinv.
Qed.

Lemma redraw_inv_handle pow2 can_open pack_f pack_I st e :
  redraw_inv (fst st) ->
  redraw_inv (fst (handle pow2 can_open pack_f pack_I st e)).
Proof.
  destruct st as [a fs]. simpl. intros Hinv. destruct e; simpl.
  - apply redraw_inv_mouse_press, Hinv.
  - exact Hinv.
  - apply redraw_inv_mouse_move, Hinv.
  - destruct (PointCloudApp.fire_timer a) as [a'|] eqn:Hf; simpl;
      [eapply redraw_inv_fire_timer; eassumption|exact Hinv].
  - apply redraw_inv_undo, Hinv.
  - apply redraw_inv_clear, Hinv.
  - apply redraw_inv_update_settings, Hinv.
  - exact Hinv.
  - apply redraw_inv_update_view, Hinv.
Qed.

(** X9: after any sequence of events on a fresh controller (mouse presses,
    moves and releases, timers firing, the Undo, Clear, Apply, Save and
    Refresh buttons), the debounce flag is set exactly when one redraw
    callback, and nothing else, is pending in the timer queue; and whenever
    none is pending, the last draw request shows the current store. *)
Theorem session_redraw_invariant
    (pow2 : float -> float)
    (can_open : string -> bool)
    (pack_f : float -> list Byte.byte)
    (pack_I : Z -> list Byte.byte)
    (evs : list ui_event) (fs : gmap string (list Byte.byte)) :
  let app := fst (run_events pow2 can_open pack_f pack_I (PointCloudApp.init, fs) evs) in
  pending_ok app /\
  (PointCloudApp.redraw_scheduled app = false -> display_fresh app).
Proof.
  simpl.
  change (redraw_inv (fst (run_events pow2 can_open pack_f pack_I
                             (PointCloudApp.init, fs) evs))).
  assert (H : forall st, redraw_inv (fst st) ->
                         redraw_inv (fst (run_events pow2 can_open pack_f pack_I st evs))).
  { induction evs as [|e evs IH]; intros st Hst; simpl; [exact Hst|].
    apply IH, redraw_inv_handle, Hst. }
  apply H, redraw_inv_init.
Qed.

(** ** Gestures *)

Lemma mouse_move_idle pow2 (a : PointCloudApp.t) ev :
  PointCloudApp.mouse_down a = false -> PointCloudApp.mouse_move pow2 a ev = a.
Proof. intros H. unfold PointCloudApp.mouse_move. rewrite H. reflexivity. Qed.

(** X10: once the button is released the controller is idle: the recorded
    position is forgotten, the store is untouched by the release, and any
    number of pointer moves that follow change nothing at all. *)
Theorem released_ignores_moves (pow2 : float -> float) (app : PointCloudApp.t)
    (ev : PointCloudApp.mouse_event) (moves : list PointCloudApp.mouse_event) :
  let idle := PointCloudApp.mouse_release app ev in
  PointCloudApp.mouse_down idle = false /\
  PointCloudApp.last_pos idle = None /\
  PointCloudApp.pc idle = PointCloudApp.pc app /\
  fold_left (PointCloudApp.mouse_move pow2) moves idle = idle.
Proof.
  intros idle. repeat split.
  induction moves as [|m moves IH]; simpl; [reflexivity|].
  rewrite mouse_move_idle by reflexivity. exact IH.
Qed.

Lemma batches_add_cloud_quick (a : PointCloudApp.t) (x y : float) :
  batches (PointCloudApp.add_cloud_quick a x y) = S (batches a).
Proof.
  unfold batches, PointCloudApp.add_cloud_quick. simpl.
  destruct (negb (PointCloudApp.redraw_scheduled a)); simpl;
    rewrite add_square_stack, List.length_app; simpl; lia.
Qed.

Lemma batches_mouse_move pow2 (a : PointCloudApp.t) ev :
  (batches a <= batches (PointCloudApp.mouse_move pow2 a ev) <= S (batches a))%nat.
Proof.
  unfold PointCloudApp.mouse_move.
  destruct (negb (PointCloudApp.mouse_down a)); [lia|].
  destruct (PointCloudApp.xydata ev) as [[x y]|]; [|lia].
  destruct (PointCloudApp.last_pos a) as [[lx ly]|]; [|unfold batches; simpl; lia].
  destruct (0.0005 <? _)%float; [|lia].
  rewrite batches_add_cloud_quick. unfold batches. simpl. lia.
Qed.

Lemma batches_moves pow2 (moves : list PointCloudApp.mouse_event)
    (a : PointCloudApp.t) :
  (batches a <= batches (fold_left (PointCloudApp.mouse_move pow2) moves a)
   <= batches a + length moves)%nat.
Proof.
  revert a. induction moves as [|m moves IH]; intros a; simpl; [lia|].
  pose proof (batches_mouse_move pow2 a m).
  specialize (IH (PointCloudApp.mouse_move pow2 a m)).
  lia.
Qed.

(** X11: a press of the primary button inside the axes appends exactly one
    batch and starts a drag at that position; the k pointer moves that
    follow append at most one batch each, so a gesture of a press and k
    moves adds between 1 and k + 1 batches.  A press with another button or
    outside the axes changes nothing. *)
Theorem gesture_appends_bounded (pow2 : float -> float)
    (app : PointCloudApp.t) (x y : float)
    (moves : list PointCloudApp.mouse_event) :
  let pressed := PointCloudApp.mouse_press app (PointCloudApp.mk_event 1 (Some (x, y))) in
  let dragged := fold_left (PointCloudApp.mouse_move pow2) moves pressed in
  PointCloudApp.mouse_down pressed = true /\
  PointCloudApp.last_pos pressed = Some (x, y) /\
  batches pressed = S (batches app) /\
  (S (batches app) <= batches dragged <= S (batches app) + length moves)%nat /\
  (forall b, b <> 1%Z ->
             PointCloudApp.mouse_press app (PointCloudApp.mk_event b (Some (x, y))) = app) /\
  (forall b, PointCloudApp.mouse_press app (PointCloudApp.mk_event b None) = app).
Proof.
  intros pressed dragged.
  assert (Hp : pressed = PointCloudApp.add_cloud_quick
                           (PointCloudApp.set_mouse app true (Some (x, y))) x y)
    by reflexivity.
  assert (Hb : batches pressed = S (batches app))
    by (rewrite Hp, batches_add_cloud_quick; reflexivity).
  split; [|split; [|split; [exact Hb|split; [|split]]]].
  - rewrite Hp. unfold PointCloudApp.add_cloud_quick. simpl.
    destruct (negb (PointCloudApp.redraw_scheduled app)); reflexivity.
  - rewrite Hp. unfold PointCloudApp.add_cloud_quick. simpl.
    destruct (negb (PointCloudApp.redraw_scheduled app)); reflexivity.
  - pose proof (batches_moves pow2 moves pressed) as H. fold dragged in H. lia.
  - intros b Hne. unfold PointCloudApp.mouse_press. simpl.
    destruct (Z.eqb_spec b 1); [contradiction|reflexivity].
  - intros b. reflexivity.
Qed.

(** ** Settings, clearing and saving from the controller *)



(** X13: the Clear button does nothing when the confirmation is declined,
    and nothing either when it is accepted on an empty store (no batch, no
    redraw); accepted on a non-empty store it empties both buffers, pushes
    one batch and logs exactly one draw request, which shows nothing. *)
Theorem clear_needs_confirmation (app : PointCloudApp.t) :
  PointCloudApp.clear app false = app /\
  (points (PointCloudApp.pc app) = [] -> PointCloudApp.clear app true = app) /\
  (points (PointCloudApp.pc app) <> [] ->
   let app' := PointCloudApp.clear app true in
   points (PointCloudApp.pc app') = [] /\
   colors (PointCloudApp.pc app') = [] /\
   batches app' = S (batches app) /\
   PointCloudApp.canvas_draws app'
   = PointCloudApp.canvas_draws app ++ [(PointCloudApp.DrawIdle, None)]).
Proof.
  split; [reflexivity|]. split.
  - intros He. unfold PointCloudApp.clear, clear. rewrite He. simpl.
    apply set_pc_same.
  - intros Hne app'. unfold app', PointCloudApp.clear, clear.
    destruct (Nat.eqb_spec (length (points (PointCloudApp.pc app)) * 3) 0) as [H0|H0].
    { destruct (points (PointCloudApp.pc app)); [congruence|simpl in H0; lia]. }
    unfold batches. simpl. rewrite List.length_app. simpl.
    repeat split. lia.
Qed.

Lemma write_file_frame can_open header record pts cols filename
    (fs : gmap string (list Byte.byte)) (other : string) :
  other <> filename ->
  snd (write_file can_open header record pts cols filename fs) !! other = fs !! other.
Proof.
  intros Hne. unfold write_file. destruct (opens can_open filename); [|reflexivity].
  destruct (write_rows _ _ _ _ _) as [content e]. simpl.
  apply lookup_insert_ne. congruence.
Qed.

(** X14: the Save button never touches a file other than the chosen path;
    on an empty store it shows the error box and leaves the file system as
    it is, whatever the format or path; and when the dialog is cancelled
    (empty path) it does nothing. *)
Theorem save_guarded (can_open : string -> bool)
    (pack_f : float -> list Byte.byte)
    (pack_I : Z -> list Byte.byte)
    (app : PointCloudApp.t) (fmt path : string) (fs : gmap string (list Byte.byte)) :
  (forall other, other <> path ->
     snd (PointCloudApp.save can_open pack_f pack_I app fmt path fs) !! other
     = fs !! other) /\
  (points (PointCloudApp.pc app) = [] ->
   PointCloudApp.save can_open pack_f pack_I app fmt path fs
   = (Returns [PointCloudApp.ErrorNoPoints], fs)) /\
  (points (PointCloudApp.pc app) <> [] ->
   PointCloudApp.save can_open pack_f pack_I app fmt EmptyString fs = (Returns [], fs)).
Proof.
  split; [|split].
  - intros other Hne. unfold PointCloudApp.save.
    destruct (length (points (PointCloudApp.pc app)) * 3 =? 0)%nat; [reflexivity|].
    destruct (String.eqb path EmptyString); [reflexivity|].
    assert (Hsave : forall r : result bool * gmap string (list Byte.byte),
               snd r !! other = fs !! other ->
               snd (let '(r0, fs') := r in
                    match r0 with
                    | Raises e => (Raises e, fs')
                    | Returns ok =>
                        if ok
                        then (Returns
                                [PointCloudApp.InfoSaved
                                   (export_layer_count (PointCloudApp.pc app))
                                   (export_layer_height (PointCloudApp.pc app))
                                   (Py.float_of_int (export_layer_count (PointCloudApp.pc app))
                                    * export_layer_height (PointCloudApp.pc app))%float], fs')
                        else (Returns [], fs')
                    end) !! other = fs !! other).
    { intros [[[|]|e] fs'] H; exact H. }
    apply Hsave.
    destruct (String.eqb fmt "ply"); unfold save_ply, save_pcd;
      destruct (build_3d_layers (PointCloudApp.pc app)) as [[pts cols]|];
      try reflexivity; apply write_file_frame; exact Hne.
  - intros He. unfold PointCloudApp.save. rewrite He. reflexivity.
  - intros Hne. unfold PointCloudApp.save.
    destruct (Nat.eqb_spec (length (points (PointCloudApp.pc app)) * 3) 0) as [H0|H0];
      [|reflexivity].
    destruct (points (PointCloudApp.pc app)); [congruence|simpl in H0; lia].
Qed.

(** ** The displayed rows *)

Lemma take_rows_all {A : Type} (a : list A) :
  PointCloudApp.take_rows a (seq 0 (length a)) = a.
Proof.
  unfold PointCloudApp.take_rows.
  induction a as [|x a IH]; [reflexivity|].
  simpl. f_equal. rewrite <- List.seq_shift.
  rewrite <- IH at 2. clear IH.
  generalize (seq 0 (length a)). intros l.
  induction l as [|i l IHl]; simpl; [reflexivity|].
  rewrite IHl. reflexivity.
Qed.

(** X15: as long as the store holds at most 30000 points, and at least
    one, the scatter artist is given every stored point, in order, as its
    (x, y) pair together with its colour; above that cap the display
    indices are exactly 30000. *)
Theorem view_shows_whole_store (s : PointCloud3D.t) :
  aligned s -> points s <> [] ->
  (length (points s) <= PointCloudApp.MAX_DISPLAY)%nat ->
  PointCloudApp.view_of s
  = Some (PointCloudApp.mk_scatter (map (fun '(x, y, _) => (x, y)) (points s)) (colors s)) /\
  (forall total, (PointCloudApp.MAX_DISPLAY < total)%nat ->
     length (PointCloudApp.display_indices total) = PointCloudApp.MAX_DISPLAY).
Proof.
  intros Hal Hne Hcap. split.
  - unfold PointCloudApp.view_of, PointCloudApp.display_indices.
    destruct (Nat.eqb_spec (length (points s)) 0) as [H0|H0].
    { destruct (points s); [congruence|discriminate]. }
    destruct (Nat.leb_spec (length (points s)) PointCloudApp.MAX_DISPLAY) as [_|H]; [|lia].
    rewrite take_rows_all. unfold aligned in Hal. rewrite Hal, take_rows_all. reflexivity.
  - intros total Ht. unfold PointCloudApp.display_indices.
    destruct (Nat.leb_spec total PointCloudApp.MAX_DISPLAY) as [H|_]; [lia|].
    rewrite List.length_map. apply linspace_length.
Qed.

Lemma view_shows_whole_store_witness :
  let s := one_point default_color in
  PointCloudApp.view_of s
  = Some (PointCloudApp.mk_scatter (map (fun '(x, y, _) => (x, y)) (points s)) (colors s)) /\
  (forall total, (PointCloudApp.MAX_DISPLAY < total)%nat ->
     length (PointCloudApp.display_indices total) = PointCloudApp.MAX_DISPLAY).
Proof.
  apply (view_shows_whole_store (one_point default_color)).
  - reflexivity.
  - vm_compute. discriminate.
  - change (1 <= PointCloudApp.MAX_DISPLAY)%nat.
    unfold PointCloudApp.MAX_DISPLAY. lia.
Defined.
